(** * terraform-provider-qrcode: the handlers of the [qrcode_generate] data
    source and resource, embedded as state-passing functions.

    The Go code is glue around three collaborators: the QR encoder
    (github.com/skip2/go-qrcode), the operating system (package os and
    path/filepath) and the Terraform plugin framework.  The encoder and the
    operating system are interfaces here ([qrcode.Lib], [os.System]); every theorem holds
    for all their implementations, and a small in-memory implementation is
    given to run the handlers on concrete requests.  The pieces of the Go
    standard library that the handlers compute with (strings.ToUpper,
    crypto/sha256, encoding/hex, fmt's %d) are written out. *)

From Stdlib Require Import ZArith List String Ascii Bool Lia.
From Stdlib.Strings Require Import Byte.
From stdpp Require Import gmap strings.
Import ListNotations.

Local Open Scope string_scope.
Local Open Scope list_scope.
Local Open Scope Z_scope.

(** ** Go values *)

(** A Go [string] is a sequence of bytes: [string].  A [[]byte] is a
    [list byte]. *)

Definition bytes_of_string (s : string) : list byte := list_byte_of_string s.

Definition byte_val (b : byte) : Z := Z.of_N (Byte.to_N b).

Definition byte_of_Z (z : Z) : byte :=
  match Byte.of_N (Z.to_N (z mod 256)) with
  | Some b => b
  | None => Byte.x00
  end.

(** ** package strings *)

Module strings.

Definition RuneSelf : N := 0x80.

Definition is_lower (c : ascii) : bool :=
  (N.leb (N_of_ascii "a") (N_of_ascii c)) && (N.leb (N_of_ascii c) (N_of_ascii "z")).

(** [c -= 'a' - 'A'] *)
Definition upper_byte (c : ascii) : ascii :=
  if is_lower c then ascii_of_N (N_of_ascii c - (N_of_ascii "a" - N_of_ascii "A")) else c.

Fixpoint isASCII (s : string) : bool :=
  match s with
  | EmptyString => true
  | String c s' => if N.leb RuneSelf (N_of_ascii c) then false else isASCII s'
  end.

Fixpoint hasLower (s : string) : bool :=
  match s with
  | EmptyString => false
  | String c s' => is_lower c || hasLower s'
  end.

Fixpoint map_bytes (f : ascii -> ascii) (s : string) : string :=
  match s with
  | EmptyString => EmptyString
  | String c s' => String (f c) (map_bytes f s')
  end.

Section ToUpper.
(** [strings.Map(unicode.ToUpper, s)], the path of ToUpper for a string
    with a byte outside ASCII; it needs the Unicode tables and is left
    open. *)
Variable Map_unicode_ToUpper : string -> string.

Definition ToUpper (s : string) : string :=
  if isASCII s then
    if negb (hasLower s) then s else map_bytes upper_byte s
  else Map_unicode_ToUpper s.
End ToUpper.

End strings.

(** ** package encoding/hex *)

Module hex.

Definition hextable : string := "0123456789abcdef".

Definition digit (n : Z) : ascii :=
  match String.get (Z.to_nat n) hextable with
  | Some c => c
  | None => "0"%char
  end.

(** [dst[j] = hextable[v>>4]; dst[j+1] = hextable[v&0x0f]] *)
Fixpoint EncodeToString (src : list byte) : string :=
  match src with
  | [] => EmptyString
  | v :: rest =>
      String (digit (Z.shiftr (byte_val v) 4))
        (String (digit (Z.land (byte_val v) 0x0f)) (EncodeToString rest))
  end.

End hex.

(** ** package crypto/sha256 (FIPS 180-4), on 32-bit words held in [Z] *)

Module sha256.

Definition mask32 : Z := 0xFFFFFFFF.
Definition add32 (x y : Z) : Z := (x + y) mod 2 ^ 32.
Definition not32 (x : Z) : Z := Z.lxor x mask32.
Definition rotr (n x : Z) : Z :=
  Z.lor (Z.shiftr x n) (Z.land (Z.shiftl x (32 - n)) mask32).

Definition Ch (x y z : Z) : Z := Z.lxor (Z.land x y) (Z.land (not32 x) z).
Definition Maj (x y z : Z) : Z :=
  Z.lxor (Z.lxor (Z.land x y) (Z.land x z)) (Z.land y z).
Definition bsig0 (x : Z) : Z := Z.lxor (Z.lxor (rotr 2 x) (rotr 13 x)) (rotr 22 x).
Definition bsig1 (x : Z) : Z := Z.lxor (Z.lxor (rotr 6 x) (rotr 11 x)) (rotr 25 x).
Definition ssig0 (x : Z) : Z := Z.lxor (Z.lxor (rotr 7 x) (rotr 18 x)) (Z.shiftr x 3).
Definition ssig1 (x : Z) : Z := Z.lxor (Z.lxor (rotr 17 x) (rotr 19 x)) (Z.shiftr x 10).

(** The first 64 primes. *)
Definition primes : list Z :=
  [ 2; 3; 5; 7; 11; 13; 17; 19; 23; 29; 31; 37; 41; 43; 47; 53;
    59; 61; 67; 71; 73; 79; 83; 89; 97; 101; 103; 107; 109; 113; 127; 131;
    137; 139; 149; 151; 157; 163; 167; 173; 179; 181; 191; 193; 197; 199; 211; 223;
    227; 229; 233; 239; 241; 251; 257; 263; 269; 271; 277; 281; 283; 293; 307; 311 ].

(** The largest [r] below [2 ^ bits] with [r ^ 3 <= n], bit by bit. *)
Fixpoint cube_root (bits : nat) (n r : Z) : Z :=
  match bits with
  | O => r
  | S b =>
      let r' := r + 2 ^ Z.of_nat b in
      cube_root b n (if r' * r' * r' <=? n then r' else r)
  end.

(** The round constants: the first 32 bits of the fractional parts of the
    cube roots of the primes. *)
Definition K : list Z :=
  Eval vm_compute in map (fun q => cube_root 40 (q * 2 ^ 96) 0 mod 2 ^ 32) primes.

(** The initial hash value: the first 32 bits of the fractional parts of
    the square roots of the first 8 primes. *)
Definition init : list Z :=
  Eval vm_compute in map (fun q => Z.sqrt (q * 2 ^ 64) mod 2 ^ 32) (firstn 8 primes).

(** Big-endian reading and writing of words. *)
Fixpoint words_of_bytes (bs : list Z) : list Z :=
  match bs with
  | b0 :: b1 :: b2 :: b3 :: rest =>
      (Z.shiftl b0 24 + Z.shiftl b1 16 + Z.shiftl b2 8 + b3) :: words_of_bytes rest
  | _ => []
  end.

Definition bytes_of_word (x : Z) : list Z :=
  [ Z.land (Z.shiftr x 24) 0xff; Z.land (Z.shiftr x 16) 0xff;
    Z.land (Z.shiftr x 8) 0xff; Z.land x 0xff ].

(** The message followed by 0x80, zeros up to 56 modulo 64, and the
    length in bits on 8 bytes. *)
Definition pad (msg : list Z) : list Z :=
  let len := Z.of_nat (length msg) in
  let bits := 8 * len in
  msg ++ [0x80] ++ repeat 0 (Z.to_nat ((55 - len) mod 64))
      ++ bytes_of_word (Z.shiftr bits 32 mod 2 ^ 32) ++ bytes_of_word (bits mod 2 ^ 32).

(** Extends the 16 words of a block by [n] words of the schedule. *)
Fixpoint schedule (n : nat) (w : list Z) : list Z :=
  match n with
  | O => w
  | S n' =>
      let t := length w in
      let x := add32 (add32 (ssig1 (nth (t - 2) w 0)) (nth (t - 7) w 0))
                     (add32 (ssig0 (nth (t - 15) w 0)) (nth (t - 16) w 0)) in
      schedule n' (w ++ [x])
  end.

Record regs := Regs { ra : Z; rb : Z; rc : Z; rd : Z; re : Z; rf : Z; rg : Z; rh : Z }.

Definition round (r : regs) (kw : Z * Z) : regs :=
  let t1 := add32 (add32 (add32 (rh r) (bsig1 (re r))) (add32 (Ch (re r) (rf r) (rg r)) (fst kw))) (snd kw) in
  let t2 := add32 (bsig0 (ra r)) (Maj (ra r) (rb r) (rc r)) in
  Regs (add32 t1 t2) (ra r) (rb r) (rc r) (add32 (rd r) t1) (re r) (rf r) (rg r).

Definition regs_of (h : list Z) : regs :=
  Regs (nth 0 h 0) (nth 1 h 0) (nth 2 h 0) (nth 3 h 0) (nth 4 h 0) (nth 5 h 0) (nth 6 h 0) (nth 7 h 0).

Definition list_of (r : regs) : list Z :=
  [ra r; rb r; rc r; rd r; re r; rf r; rg r; rh r].

Definition block (h : list Z) (chunk : list Z) : list Z :=
  let w := schedule 48 (words_of_bytes chunk) in
  let r := fold_left round (combine K w) (regs_of h) in
  map (fun p => add32 (fst p) (snd p)) (combine h (list_of r)).

Fixpoint blocks (n : nat) (h : list Z) (data : list Z) : list Z :=
  match n with
  | O => h
  | S n' => blocks n' (block h (firstn 64 data)) (skipn 64 data)
  end.

(** [sha256.Sum256(data)]: the 32 bytes of the digest. *)
Definition Sum256 (data : list byte) : list byte :=
  let p := pad (map byte_val data) in
  let h := blocks (Nat.div (length p) 64) init p in
  map byte_of_Z (concat (map bytes_of_word h)).

End sha256.

(** ** package fmt, the verb %d *)

Module fmt.

Definition decimal_digit (n : Z) : ascii := ascii_of_N (Z.to_N (48 + n mod 10)).

Fixpoint digits (fuel : nat) (n : Z) (acc : string) : string :=
  match fuel with
  | O => acc
  | S fuel' =>
      let acc' := String (decimal_digit n) acc in
      if n <? 10 then acc' else digits fuel' (n / 10) acc'
  end.

(** [%d] of an integer. *)
Definition d (n : Z) : string :=
  if n <? 0 then String "-" (digits (S (Z.to_nat (Z.log2 (- n)))) (- n) EmptyString)
  else digits (S (Z.to_nat (Z.log2 n))) n EmptyString.

End fmt.

(** ** Go errors *)

Inductive Errno := ENOENT | EACCES | ENOTDIR | EISDIR | ENOTEMPTY | EIO.

Definition strerror (e : Errno) : string :=
  match e with
  | ENOENT => "no such file or directory"
  | EACCES => "permission denied"
  | ENOTDIR => "not a directory"
  | EISDIR => "is a directory"
  | ENOTEMPTY => "directory not empty"
  | EIO => "input/output error"
  end.

(** An [error] is an [*fs.PathError] of package os or a plain message (the
    errors of the QR encoder). *)
Inductive error :=
| PathError (Op Path : string) (Err : Errno)
| errorString (s : string).

(** [err.Error()] *)
Definition Error (err : error) : string :=
  match err with
  | PathError op path e => op +:+ " " +:+ path +:+ ": " +:+ strerror e
  | errorString s => s
  end.

(** A call that returns [(T, error)]. *)
Inductive result (T : Type) :=
| Ok (v : T)
| Err (err : error).
Arguments Ok {T} v.
Arguments Err {T} err.

(** ** terraform-plugin-framework: diag *)

Module diag.

Inductive Severity := SeverityError | SeverityWarning.

Record Diagnostic := {
  severity : Severity;
  Summary : string;
  Detail : string;
  (** the attribute of a diagnostic made with a path, if any *)
  Path : option string
}.

Definition Diagnostics := list Diagnostic.

#[global] Instance Severity_eq_dec : EqDecision Severity.
Proof. solve_decision. Defined.

#[global] Instance Diagnostic_eq_dec : EqDecision Diagnostic.
Proof. solve_decision. Defined.

Definition NewErrorDiagnostic (summary detail : string) : Diagnostic :=
  {| severity := SeverityError; Summary := summary; Detail := detail; Path := None |}.

Definition Contains (diags : Diagnostics) (d : Diagnostic) : bool :=
  existsb (fun d' => bool_decide (d' = d)) diags.

(** [Append] adds the diagnostics that the collection does not hold yet. *)
Fixpoint Append (diags : Diagnostics) (new : list Diagnostic) : Diagnostics :=
  match new with
  | [] => diags
  | d :: rest => Append (if Contains diags d then diags else diags ++ [d]) rest
  end.

Definition AddError (diags : Diagnostics) (summary detail : string) : Diagnostics :=
  Append diags [NewErrorDiagnostic summary detail].

Definition is_error (d : Diagnostic) : bool :=
  match severity d with SeverityError => true | SeverityWarning => false end.

Definition HasError (diags : Diagnostics) : bool := existsb is_error diags.

End diag.

(** ** terraform-plugin-framework: types *)

Module types.

(** A value of the framework is null, unknown or known. *)
Inductive Value (T : Type) :=
| Null
| Unknown
| Known (v : T).
Arguments Null {T}.
Arguments Unknown {T}.
Arguments Known {T} v.

Definition IsNull {T} (x : Value T) : bool :=
  match x with Null => true | _ => false end.

Definition IsUnknown {T} (x : Value T) : bool :=
  match x with Unknown => true | _ => false end.

Definition String := Value string.
Definition Int64 := Value Z.
Definition Bool := Value bool.

Definition StringValue (s : string) : String := Known s.

(** The accessors return the zero value for null and unknown. *)
Definition ValueString (x : String) : string :=
  match x with Known s => s | _ => "" end.
Definition ValueInt64 (x : Int64) : Z :=
  match x with Known n => n | _ => 0 end.
Definition ValueBool (x : Bool) : bool :=
  match x with Known b => b | _ => false end.

End types.

(** ** terraform-plugin-framework: tfsdk *)

Module tfsdk.

(** A Config, Plan or prior State as a handler sees it through [Get]:
    the struct that [Get] fills in and the diagnostics it returns. *)
Record Data (M : Type) := {
  target : M;
  diags : diag.Diagnostics
}.
Arguments target {M} _.
Arguments diags {M} _.

Definition Get {M} (x : Data M) : M * diag.Diagnostics := (target x, diags x).

(** The State of a response: [None] is the null state, which
    [RemoveResource] writes. *)
Definition State (M : Type) := option M.

End tfsdk.

(** ** github.com/skip2/go-qrcode *)

Module qrcode.

Inductive RecoveryLevel := Low | Medium | High | Highest.

(** The encoder is an opaque collaborator: any implementation of this
    interface. *)
Class Lib := {
  (** [*qrcode.QRCode] *)
  QRCode : Type;
  (** [qrcode.New(content, level)] *)
  New : string -> RecoveryLevel -> result QRCode;
  (** [qrcode.Encode(content, level, size)]: the PNG *)
  Encode : string -> RecoveryLevel -> Z -> result (list byte);
  (** [q.DisableBorder = b] *)
  set_DisableBorder : QRCode -> bool -> QRCode;
  (** [q.ToSmallString(inverseColor)] *)
  ToSmallString : QRCode -> bool -> string
}.

End qrcode.

(** ** packages os and path/filepath *)

Module os.

(** [os.ModePerm], 0o777 *)
Definition ModePerm : Z := 0x1ff.

(** [os.IsNotExist(err)] *)
Definition IsNotExist (err : option error) : bool :=
  match err with
  | Some (PathError _ _ ENOENT) => true
  | _ => false
  end.

(** The file system behind the calls the handlers make; [Disk] is its
    state.  [contents] is what a reader finds at a path, and [resolve] is
    the file that a path names on a disk: two spellings of one file
    ("out/q.png" and "./out/q.png") and two links to one file resolve to the
    same name.  Neither is called by the handlers; the theorems observe the
    disk through them. *)
Class System (Disk : Type) := {
  Stat : string -> Disk -> option error;
  Remove : string -> Disk -> Disk * option error;
  MkdirAll : string -> Z -> Disk -> Disk * option error;
  WriteFile : string -> list byte -> Z -> Disk -> Disk * option error;
  (** [filepath.Dir] *)
  Dir : string -> string;
  contents : Disk -> string -> option (list byte);
  resolve : Disk -> string -> string
}.

(** What the theorems about file contents assume of the file system: a
    write is read back, and it changes what is found at the paths that name
    the file written, and at no other. *)
Class Laws {Disk : Type} (sys : System Disk) := {
  WriteFile_contents : forall name data perm d d',
    WriteFile name data perm d = (d', None) -> contents d' name = Some data;
  WriteFile_frame : forall name data perm d other,
    resolve d other <> resolve d name ->
    contents (fst (WriteFile name data perm d)) other = contents d other;
  MkdirAll_frame : forall path perm d other,
    contents (fst (MkdirAll path perm d)) other = contents d other;
  Remove_gone : forall name d d',
    Remove name d = (d', None) ->
    contents d' name = None /\ IsNotExist (Stat name d') = true
}.

End os.

(** ** The world of a handler: the disk and the record of the calls made
    to the collaborators, oldest first. *)

Inductive Call :=
| Call_qrcode_New (content : string) (level : qrcode.RecoveryLevel)
| Call_qrcode_Encode (content : string) (level : qrcode.RecoveryLevel) (size : Z)
| Call_os_Stat (name : string)
| Call_os_Remove (name : string)
| Call_os_MkdirAll (path : string) (perm : Z)
| Call_os_WriteFile (name : string) (data : list byte) (perm : Z).

Record World (Disk : Type) := {
  disk : Disk;
  calls : list Call
}.
Arguments disk {Disk} _.
Arguments calls {Disk} _.

Section Calls.
Context {Disk : Type} {sys : os.System Disk} {lib : qrcode.Lib}.

Definition record (c : Call) (w : World Disk) : World Disk :=
  {| disk := disk w; calls := calls w ++ [c] |}.

Definition qrcode_New (content : string) (level : qrcode.RecoveryLevel) (w : World Disk)
  : World Disk * result qrcode.QRCode :=
  (record (Call_qrcode_New content level) w, qrcode.New content level).

Definition qrcode_Encode (content : string) (level : qrcode.RecoveryLevel) (size : Z)
    (w : World Disk) : World Disk * result (list byte) :=
  (record (Call_qrcode_Encode content level size) w, qrcode.Encode content level size).

Definition os_Stat (name : string) (w : World Disk) : World Disk * option error :=
  (record (Call_os_Stat name) w, os.Stat name (disk w)).

Definition os_Remove (name : string) (w : World Disk) : World Disk * option error :=
  let '(d, err) := os.Remove name (disk w) in
  ({| disk := d; calls := calls w ++ [Call_os_Remove name] |}, err).

Definition os_MkdirAll (path : string) (perm : Z) (w : World Disk) : World Disk * option error :=
  let '(d, err) := os.MkdirAll path perm (disk w) in
  ({| disk := d; calls := calls w ++ [Call_os_MkdirAll path perm] |}, err).

Definition os_WriteFile (name : string) (data : list byte) (perm : Z) (w : World Disk)
  : World Disk * option error :=
  let '(d, err) := os.WriteFile name data perm (disk w) in
  ({| disk := d; calls := calls w ++ [Call_os_WriteFile name data perm] |}, err).
End Calls.

(** ** terraform-plugin-framework: resource and datasource requests and
    responses over the struct [M] of a handler *)

Module resource.

Module CreateRequest.
(** [Config] is [None] when the field is left at its zero value. *)
Record t (M : Type) := { Config : option (tfsdk.Data M); Plan : tfsdk.Data M }.
Arguments Config {M} _.
Arguments Plan {M} _.
End CreateRequest.

Module UpdateRequest.
Record t (M : Type) := {
  Config : option (tfsdk.Data M);
  Plan : tfsdk.Data M;
  (** the prior state *)
  State : tfsdk.Data M
}.
Arguments Config {M} _.
Arguments Plan {M} _.
Arguments State {M} _.
End UpdateRequest.

Module ReadRequest.
Record t (M : Type) := { State : tfsdk.Data M }.
Arguments State {M} _.
End ReadRequest.

Module DeleteRequest.
Record t (M : Type) := { State : tfsdk.Data M }.
Arguments State {M} _.
End DeleteRequest.

(** CreateResponse, ReadResponse, UpdateResponse and DeleteResponse are
    four names of one struct shape, which is what lets Update hand its
    response to Create through a pointer conversion. *)
Record Response (M : Type) := {
  State : tfsdk.State M;
  Diagnostics : diag.Diagnostics
}.
Arguments State {M} _.
Arguments Diagnostics {M} _.

Definition CreateResponse := Response.
Definition ReadResponse := Response.
Definition UpdateResponse := Response.
Definition DeleteResponse := Response.

Section Response.
Context {M : Type}.

(** [resp.Diagnostics.Append(diags...)] *)
Definition Diagnostics_Append (resp : Response M) (diags : diag.Diagnostics) : Response M :=
  {| State := State resp; Diagnostics := diag.Append (Diagnostics resp) diags |}.

(** [resp.Diagnostics.AddError(summary, detail)] *)
Definition Diagnostics_AddError (resp : Response M) (summary detail : string) : Response M :=
  {| State := State resp; Diagnostics := diag.AddError (Diagnostics resp) summary detail |}.

(** [resp.State.Set(ctx, &m)] *)
Definition State_Set (resp : Response M) (m : M) : Response M :=
  {| State := Some m; Diagnostics := Diagnostics resp |}.

(** [resp.State.RemoveResource(ctx)] *)
Definition State_RemoveResource (resp : Response M) : Response M :=
  {| State := None; Diagnostics := Diagnostics resp |}.
End Response.

End resource.

Module datasource.

Module ReadRequest.
Record t (M : Type) := { Config : tfsdk.Data M }.
Arguments Config {M} _.
End ReadRequest.

Record ReadResponse (M : Type) := {
  State : tfsdk.State M;
  Diagnostics : diag.Diagnostics
}.
Arguments State {M} _.
Arguments Diagnostics {M} _.

Section Response.
Context {M : Type}.

Definition Diagnostics_Append (resp : ReadResponse M) (diags : diag.Diagnostics) : ReadResponse M :=
  {| State := State resp; Diagnostics := diag.Append (Diagnostics resp) diags |}.

Definition Diagnostics_AddError (resp : ReadResponse M) (summary detail : string) : ReadResponse M :=
  {| State := State resp; Diagnostics := diag.AddError (Diagnostics resp) summary detail |}.

(** [diags = resp.State.Set(ctx, &data); resp.Diagnostics.Append(diags...)]
    with a struct that has the shape of the schema: nothing to report. *)
Definition State_Set (resp : ReadResponse M) (m : M) : ReadResponse M :=
  {| State := Some m; Diagnostics := diag.Append (Diagnostics resp) [] |}.
End Response.

End datasource.

(** ** terraform-plugin-framework: schema *)

Module schema.

(** [stringvalidator.ExactlyOneOf(path.MatchRoot(p), ...)] *)
Inductive Validator := ExactlyOneOf (paths : list string).

Inductive Kind := StringAttribute | Int64Attribute | BoolAttribute.

Record Attribute := {
  kind : Kind;
  Optional : bool;
  Required : bool;
  Computed : bool;
  Sensitive : bool;
  Description : string;
  Validators : list Validator
}.

(** [map[string]schema.Attribute], in the order of the source. *)
Definition Schema := list (string * Attribute).

(** A configuration as validation sees it: for each attribute whether it
    is null, unknown or known. *)
Definition Config := string -> types.Value unit.

Definition forget {T} (x : types.Value T) : types.Value unit :=
  match x with
  | types.Null => types.Null
  | types.Unknown => types.Unknown
  | types.Known _ => types.Known tt
  end.

Definition InvalidAttributeCombinationDiagnostic (path description : string) : diag.Diagnostic :=
  {| diag.severity := diag.SeverityError;
     diag.Summary := "Invalid Attribute Combination";
     diag.Detail := description;
     diag.Path := Some path |}.

(** Modelled from the spec: the ExactlyOneOf validator belongs to
    terraform-plugin-framework-validators and is declared, not defined, by
    this repository.  Exactly one of the attribute it is attached to and
    the attributes it lists must be supplied: it counts those that are not
    null, reports when the count is not one, and waits while one of them
    is unknown. *)
Definition ExactlyOneOf_Validate (self : string) (paths : list string) (config : Config)
  : diag.Diagnostics :=
  if types.IsUnknown (config self) then [] else
  let others := filter (fun p => negb (String.eqb p self)) paths in
  if existsb (fun p => types.IsUnknown (config p)) others then [] else
  let count :=
    ((if types.IsNull (config self) then 0 else 1)
     + length (filter (fun p => negb (types.IsNull (config p))) others))%nat in
  let all := "[" +:+ String.concat "," paths +:+ "]" in
  if Nat.eqb count 0 then
    [InvalidAttributeCombinationDiagnostic self
       ("No attribute specified when one (and only one) of " +:+ all +:+ " is required")]
  else if Nat.ltb 1 count then
    [InvalidAttributeCombinationDiagnostic self
       (fmt.d (Z.of_nat count) +:+ " attributes specified when one (and only one) of "
          +:+ all +:+ " is required")]
  else [].

Definition Validator_Validate (self : string) (v : Validator) (config : Config)
  : diag.Diagnostics :=
  match v with
  | ExactlyOneOf paths => ExactlyOneOf_Validate self paths config
  end.

(** Runs every validator that the schema declares. *)
Definition Validate (s : Schema) (config : Config) : diag.Diagnostics :=
  fold_left
    (fun diags '(name, a) =>
       fold_left (fun diags v => diag.Append diags (Validator_Validate name v config))
         (Validators a) diags)
    s [].

(** Modelled from the spec: validation is done by the host at schema
    level, before handler logic runs; a handler is called only with a
    configuration whose validation reported no error. *)
Definition validated {W R : Type} (s : Schema) (config : Config)
    (report : R -> diag.Diagnostics -> R) (handler : W -> R -> W * R) (w : W) (resp : R)
  : W * R :=
  let diags := Validate s config in
  if diag.HasError diags then (w, report resp diags) else handler w resp.

End schema.

(** ** Go integers *)

(** [int(x)] of an [int64] on a 64-bit target: the value modulo 2^64, read
    as signed. *)
Definition int (x : Z) : Z := (x + 2 ^ 63) mod 2 ^ 64 - 2 ^ 63.

Definition is_int64 (x : Z) : Prop := - 2 ^ 63 <= x < 2 ^ 63.

(** ** internal/provider/resource_qrcode.go *)

Module qrcodeResource.

(** The struct that Create, Read and Delete declare, with its tfsdk
    tags as field names. *)
Record Model := {
  Text : types.String;           (* text *)
  SensitiveText : types.String;  (* sensitive_text *)
  Size : types.Int64;            (* size *)
  File : types.String;           (* file *)
  SHA256 : types.String          (* sha256 *)
}.

(** Schema defines the resource schema. *)
Definition Schema : schema.Schema :=
  [ ("text",
     {| schema.kind := schema.StringAttribute;
        schema.Optional := true; schema.Required := false;
        schema.Computed := false; schema.Sensitive := false;
        schema.Description := "The text content to encode in the QR code.";
        schema.Validators := [schema.ExactlyOneOf ["text"; "sensitive_text"]] |});
    ("sensitive_text",
     {| schema.kind := schema.StringAttribute;
        schema.Optional := true; schema.Required := false;
        schema.Computed := false; schema.Sensitive := true;
        schema.Description := "Sensitive text content to encode in the QR code.";
        schema.Validators := [] |});
    ("size",
     {| schema.kind := schema.Int64Attribute;
        schema.Optional := true; schema.Required := false;
        schema.Computed := false; schema.Sensitive := false;
        schema.Description := "Size of the QR code image in pixels.";
        schema.Validators := [] |});
    ("file",
     {| schema.kind := schema.StringAttribute;
        schema.Optional := false; schema.Required := true;
        schema.Computed := false; schema.Sensitive := false;
        schema.Description := "Path to save the generated QR code image.";
        schema.Validators := [] |});
    ("sha256",
     {| schema.kind := schema.StringAttribute;
        schema.Optional := false; schema.Required := false;
        schema.Computed := true; schema.Sensitive := false;
        schema.Description := "SHA-256 checksum of the generated QR code image.";
        schema.Validators := [] |}) ].

(** The attributes of a struct under their tfsdk tags. *)
Definition attributes (m : Model) : schema.Config :=
  fun name =>
    if String.eqb name "text" then schema.forget (Text m)
    else if String.eqb name "sensitive_text" then schema.forget (SensitiveText m)
    else if String.eqb name "size" then schema.forget (Size m)
    else if String.eqb name "file" then schema.forget (File m)
    else if String.eqb name "sha256" then schema.forget (SHA256 m)
    else types.Null.

Definition defaultSize : Z := 256.
Definition minSize : Z := 100.
Definition maxSize : Z := 2000.

(** [fmt.Sprintf("Size must be between %d and %d pixels.", minSize, maxSize)] *)
Definition size_detail : string :=
  "Size must be between " +:+ fmt.d minSize +:+ " and " +:+ fmt.d maxSize +:+ " pixels.".

Section Handlers.
Context {Disk : Type} {sys : os.System Disk} {lib : qrcode.Lib}.

Import resource.

(** Create generates a QR code and saves it to a file. *)
Definition Create (w : World Disk) (req : CreateRequest.t Model) (resp : CreateResponse Model)
  : World Disk * CreateResponse Model :=
  let '(plan, diags) := tfsdk.Get (CreateRequest.Plan req) in
  let resp := Diagnostics_Append resp diags in
  if diag.HasError (Diagnostics resp) then (w, resp) else
  (* Determine which text to use *)
  let qrText :=
    if negb (types.IsNull (Text plan)) then types.ValueString (Text plan)
    else types.ValueString (SensitiveText plan) in
  (* Set size: the size, or the response of the early return *)
  let size :=
    if negb (types.IsNull (Size plan)) then
      let sizeVal := int (types.ValueInt64 (Size plan)) in
      if (sizeVal <? minSize) || (sizeVal >? maxSize) then
        inr (Diagnostics_AddError resp "Invalid Size" size_detail)
      else inl sizeVal
    else inl defaultSize in
  match size with
  | inr resp => (w, resp)
  | inl size =>
      (* Generate QR code *)
      match qrcode_Encode qrText qrcode.Medium size w with
      | (w, Err err) => (w, Diagnostics_AddError resp "QR Code Generation Failed" (Error err))
      | (w, Ok pngData) =>
          (* Compute SHA-256 checksum *)
          let hash := sha256.Sum256 pngData in
          let sha256Checksum := hex.EncodeToString hash in
          (* Save to file *)
          let filePath := types.ValueString (File plan) in
          let dir := os.Dir filePath in
          match os_MkdirAll dir os.ModePerm w with
          | (w, Some err) =>
              (w, Diagnostics_AddError resp "Failed to Create Directory" (Error err))
          | (w, None) =>
              match os_WriteFile filePath pngData 0x1a4 (* 0644 *) w with
              | (w, Some err) =>
                  (w, Diagnostics_AddError resp "Failed to Save QR Code" (Error err))
              | (w, None) =>
                  (* Set state *)
                  (w, State_Set resp
                        {| Text := Text plan;
                           SensitiveText := SensitiveText plan;
                           Size := Size plan;
                           File := File plan;
                           SHA256 := types.StringValue sha256Checksum |})
              end
          end
      end
  end.

(** Read refreshes the state. *)
Definition Read (w : World Disk) (req : ReadRequest.t Model) (resp : ReadResponse Model)
  : World Disk * ReadResponse Model :=
  (* Read the state *)
  let '(state, diags) := tfsdk.Get (ReadRequest.State req) in
  let resp := Diagnostics_Append resp diags in
  if diag.HasError (Diagnostics resp) then (w, resp) else
  (* If the file path is not set, nothing to check *)
  if types.IsNull (File state) || String.eqb (types.ValueString (File state)) "" then (w, resp) else
  let filePath := types.ValueString (File state) in
  (* Check if the file exists *)
  let '(w, err) := os_Stat filePath w in
  if os.IsNotExist err then
    (* File is missing, remove the resource from the state *)
    (w, State_RemoveResource resp)
  else (w, resp).

(** Update is identical to Create since QR codes are immutable. *)
Definition Update (w : World Disk) (req : UpdateRequest.t Model) (resp : UpdateResponse Model)
  : World Disk * UpdateResponse Model :=
Create w
  {| CreateRequest.Config := None; CreateRequest.Plan := UpdateRequest.Plan req |}
  (resp : CreateResponse Model).

(** Delete removes the QR code file and the resource from state. *)
Definition Delete (w : World Disk) (req : DeleteRequest.t Model) (resp : DeleteResponse Model)
  : World Disk * DeleteResponse Model :=
  (* Read current state *)
  let '(state, diags) := tfsdk.Get (DeleteRequest.State req) in
  let resp := Diagnostics_Append resp diags in
  if diag.HasError (Diagnostics resp) then (w, resp) else
  (* Remove the file if it exists *)
  if types.IsNull (File state) || String.eqb (types.ValueString (File state)) "" then
    (w, resp) (* No file to delete *)
  else
  let filePath := types.ValueString (File state) in
  let '(w, err) := os_Stat filePath w in
  match err with
  | None =>
      (* File exists, attempt to delete *)
      match os_Remove filePath w with
      | (w, Some err) => (w, Diagnostics_AddError resp "Failed to Delete QR Code" (Error err))
      | (w, None) =>
          (* Remove the resource from state *)
          (w, State_RemoveResource resp)
      end
  | Some _ =>
      (* Remove the resource from state *)
      (w, State_RemoveResource resp)
  end.

End Handlers.

End qrcodeResource.

(** ** The data source.  Two files of the package declare it: the one with
    the [ascii_sha256] attribute, which the acceptance test reads, and
    data_source_qrcode.go, which has the [ascii] attribute alone. *)

(** *** The data source with [ascii_sha256] *)

Module QRCodeDataSource.

Record Model := {
  Text : types.String;             (* text *)
  SensitiveText : types.String;    (* sensitive_text *)
  ErrorCorrection : types.String;  (* error_correction *)
  DisableBorder : types.Bool;      (* disable_border *)
  Invert : types.Bool;             (* invert *)
  ASCII : types.String;            (* ascii *)
  ASCIISHA256 : types.String       (* ascii_sha256 *)
}.

(** Schema defines the input and output attributes for the QR code data
    source. *)
Definition Schema : schema.Schema :=
  [ ("text",
     {| schema.kind := schema.StringAttribute;
        schema.Optional := true; schema.Required := false;
        schema.Computed := false; schema.Sensitive := false;
        schema.Description := "The text to encode as a QR code.";
        schema.Validators := [schema.ExactlyOneOf ["text"; "sensitive_text"]] |});
    ("sensitive_text",
     {| schema.kind := schema.StringAttribute;
        schema.Optional := true; schema.Required := false;
        schema.Computed := false; schema.Sensitive := true;
        schema.Description := "Sensitive text to encode as a QR code.";
        schema.Validators := [] |});
    ("error_correction",
     {| schema.kind := schema.StringAttribute;
        schema.Optional := true; schema.Required := false;
        schema.Computed := false; schema.Sensitive := false;
        schema.Description :=
          "Error correction level: L (low), M (medium, default), Q (high), H (highest).";
        schema.Validators := [] |});
    ("disable_border",
     {| schema.kind := schema.BoolAttribute;
        schema.Optional := true; schema.Required := false;
        schema.Computed := false; schema.Sensitive := false;
        schema.Description := "Set to true to disable the QR Code border.";
        schema.Validators := [] |});
    ("invert",
     {| schema.kind := schema.BoolAttribute;
        schema.Optional := true; schema.Required := false;
        schema.Computed := false; schema.Sensitive := false;
        schema.Description := "Set to true to invert black and white colors.";
        schema.Validators := [] |});
    ("ascii",
     {| schema.kind := schema.StringAttribute;
        schema.Optional := false; schema.Required := false;
        schema.Computed := true; schema.Sensitive := false;
        schema.Description := "ASCII text representation of the QR code.";
        schema.Validators := [] |});
    ("ascii_sha256",
     {| schema.kind := schema.StringAttribute;
        schema.Optional := false; schema.Required := false;
        schema.Computed := true; schema.Sensitive := false;
        schema.Description := "SHA-256 checksum of the ASCII QR code.";
        schema.Validators := [] |}) ].

(** The attributes of a struct under their tfsdk tags. *)
Definition attributes (m : Model) : schema.Config :=
  fun name =>
    if String.eqb name "text" then schema.forget (Text m)
    else if String.eqb name "sensitive_text" then schema.forget (SensitiveText m)
    else if String.eqb name "error_correction" then schema.forget (ErrorCorrection m)
    else if String.eqb name "disable_border" then schema.forget (DisableBorder m)
    else if String.eqb name "invert" then schema.forget (Invert m)
    else if String.eqb name "ascii" then schema.forget (ASCII m)
    else if String.eqb name "ascii_sha256" then schema.forget (ASCIISHA256 m)
    else types.Null.

(** computeSHA256 calculates the SHA-256 hash of a string and returns it
    as a hex string. *)
Definition computeSHA256 (input : string) : string :=
  let hash := sha256.Sum256 (bytes_of_string input) in
  hex.EncodeToString hash.

Definition level_detail : string :=
  "Supported values: L (low), M (medium), Q (high), H (highest).".

Section Handlers.
Context {Disk : Type} {sys : os.System Disk} {lib : qrcode.Lib}.
Variable unicode_upper : string -> string.

Import datasource.

(** Read generates the QR code in both Base64 PNG and ASCII formats. *)
Definition Read (w : World Disk) (req : ReadRequest.t Model) (resp : ReadResponse Model)
  : World Disk * ReadResponse Model :=
  (* Read input data from Terraform *)
  let '(data, diags) := tfsdk.Get (ReadRequest.Config req) in
  let resp := Diagnostics_Append resp diags in
  if diag.HasError (Diagnostics resp) then (w, resp) else
  (* Determine error correction level: the switch, [None] for default *)
  let level :=
    let tag := strings.ToUpper unicode_upper (types.ValueString (ErrorCorrection data)) in
    if String.eqb tag "L" then Some qrcode.Low
    else if String.eqb tag "M" || String.eqb tag "" then Some qrcode.Medium
    else if String.eqb tag "Q" then Some qrcode.High
    else if String.eqb tag "H" then Some qrcode.Highest
    else None in
  match level with
  | None => (w, Diagnostics_AddError resp "Invalid Error Correction Level" level_detail)
  | Some level =>
      (* Determine which text to use for QR generation *)
      let qrText :=
        if negb (types.IsNull (Text data)) then types.ValueString (Text data)
        else types.ValueString (SensitiveText data) in
      (* Generate QR code *)
      match qrcode_New qrText level w with
      | (w, Err err) =>
          (w, Diagnostics_AddError resp "QR Code Generation Failed"
                ("Could not generate QR code: " +:+ Error err))
      | (w, Ok qr) =>
          (* Apply optional flags *)
          let qr :=
            if types.ValueBool (DisableBorder data) then qrcode.set_DisableBorder qr true
            else qr in
          (* Convert to ASCII *)
          let asciiQR := qrcode.ToSmallString qr (types.ValueBool (Invert data)) in
          (* Compute SHA-256 checksum *)
          let asciiChecksum := computeSHA256 asciiQR in
          (* Set Terraform state *)
          let data :=
            {| Text := Text data;
               SensitiveText := SensitiveText data;
               ErrorCorrection := ErrorCorrection data;
               DisableBorder := DisableBorder data;
               Invert := Invert data;
               ASCII := types.StringValue asciiQR;
               ASCIISHA256 := types.StringValue asciiChecksum |} in
          (w, State_Set resp data)
      end
  end.

End Handlers.

End QRCodeDataSource.

(** *** internal/provider/data_source_qrcode.go *)

Module QRCodeDataSourceAscii.

Record Model := {
  Text : types.String;             (* text *)
  SensitiveText : types.String;    (* sensitive_text *)
  ErrorCorrection : types.String;  (* error_correction *)
  DisableBorder : types.Bool;      (* disable_border *)
  Invert : types.Bool;             (* invert *)
  ASCII : types.String             (* ascii *)
}.

(** Schema defines the input and output attributes for the QR code data
    source. *)
Definition Schema : schema.Schema :=
  [ ("text",
     {| schema.kind := schema.StringAttribute;
        schema.Optional := true; schema.Required := false;
        schema.Computed := false; schema.Sensitive := false;
        schema.Description := "The text to encode as a QR code.";
        schema.Validators := [schema.ExactlyOneOf ["text"; "sensitive_text"]] |});
    ("sensitive_text",
     {| schema.kind := schema.StringAttribute;
        schema.Optional := true; schema.Required := false;
        schema.Computed := false; schema.Sensitive := true;
        schema.Description := "Sensitive text to encode as a QR code.";
        schema.Validators := [] |});
    ("error_correction",
     {| schema.kind := schema.StringAttribute;
        schema.Optional := true; schema.Required := false;
        schema.Computed := false; schema.Sensitive := false;
        schema.Description :=
          "Error correction level: L (low), M (medium, default), Q (high), H (highest).";
        schema.Validators := [] |});
    ("disable_border",
     {| schema.kind := schema.BoolAttribute;
        schema.Optional := true; schema.Required := false;
        schema.Computed := false; schema.Sensitive := false;
        schema.Description := "Set to true to disable the QR Code border.";
        schema.Validators := [] |});
    ("invert",
     {| schema.kind := schema.BoolAttribute;
        schema.Optional := true; schema.Required := false;
        schema.Computed := false; schema.Sensitive := false;
        schema.Description := "Set to true to invert black and white colors.";
        schema.Validators := [] |});
    ("ascii",
     {| schema.kind := schema.StringAttribute;
        schema.Optional := false; schema.Required := false;
        schema.Computed := true; schema.Sensitive := false;
        schema.Description := "ASCII text representation of the QR code.";
        schema.Validators := [] |}) ].

(** The attributes of a struct under their tfsdk tags. *)
Definition attributes (m : Model) : schema.Config :=
  fun name =>
    if String.eqb name "text" then schema.forget (Text m)
    else if String.eqb name "sensitive_text" then schema.forget (SensitiveText m)
    else if String.eqb name "error_correction" then schema.forget (ErrorCorrection m)
    else if String.eqb name "disable_border" then schema.forget (DisableBorder m)
    else if String.eqb name "invert" then schema.forget (Invert m)
    else if String.eqb name "ascii" then schema.forget (ASCII m)
    else types.Null.

Definition level_detail : string :=
  "Supported values: L (low), M (medium), Q (high), H (highest).".

Section Handlers.
Context {Disk : Type} {sys : os.System Disk} {lib : qrcode.Lib}.
Variable unicode_upper : string -> string.

Import datasource.

Definition Read (w : World Disk) (req : ReadRequest.t Model) (resp : ReadResponse Model)
  : World Disk * ReadResponse Model :=
  let '(data, diags) := tfsdk.Get (ReadRequest.Config req) in
  let resp := Diagnostics_Append resp diags in
  if diag.HasError (Diagnostics resp) then (w, resp) else
  let level :=
    let tag := strings.ToUpper unicode_upper (types.ValueString (ErrorCorrection data)) in
    if String.eqb tag "L" then Some qrcode.Low
    else if String.eqb tag "M" || String.eqb tag "" then Some qrcode.Medium
    else if String.eqb tag "Q" then Some qrcode.High
    else if String.eqb tag "H" then Some qrcode.Highest
    else None in
  match level with
  | None => (w, Diagnostics_AddError resp "Invalid Error Correction Level" level_detail)
  | Some level =>
      (* [textValue := data.Text.ValueString()], replaced when Text is null *)
      let textValue := types.ValueString (Text data) in
      let textValue :=
        if types.IsNull (Text data) then types.ValueString (SensitiveText data)
        else textValue in
      match qrcode_New textValue level w with
      | (w, Err err) =>
          (w, Diagnostics_AddError resp "QR Code Generation Failed"
                ("Could not generate QR code: " +:+ Error err))
      | (w, Ok qr) =>
          let qr :=
            if types.ValueBool (DisableBorder data) then qrcode.set_DisableBorder qr true
            else qr in
          let asciiQR := qrcode.ToSmallString qr (types.ValueBool (Invert data)) in
          let data :=
            {| Text := Text data;
               SensitiveText := SensitiveText data;
               ErrorCorrection := ErrorCorrection data;
               DisableBorder := DisableBorder data;
               Invert := Invert data;
               ASCII := types.StringValue asciiQR |} in
          (w, State_Set resp data)
      end
  end.

End Handlers.

End QRCodeDataSourceAscii.

(** ** An in-memory file system

    One implementation of [os.System], to run the handlers on concrete
    requests.  A disk maps a path to a file or a directory; the paths in
    [denied] refuse every call with EACCES, and a path below a regular file
    answers ENOTDIR.  A path is looked up without the "./" in front, and a
    file can be written when the directory above it exists or is the
    working directory or the root. *)

Module memfs.

Inductive Node :=
| File (data : list byte)
| Directory.

Record Disk := {
  nodes : gmap string Node;
  denied : list string
}.

Definition is_denied (name : string) (d : Disk) : bool :=
  existsb (String.eqb name) (denied d).

(** The index after the last separator of [s], counted from [i]. *)
Fixpoint last_separator (s : string) (i : nat) (found : nat) : nat :=
  match s with
  | EmptyString => found
  | String c s' => last_separator s' (S i) (if Ascii.eqb c "/" then S i else found)
  end.

(** Drops the separators at the end of [s], given its length. *)
Fixpoint trim_separators (n : nat) (s : string) : string :=
  match n with
  | O => s
  | S n' =>
      match String.get n' s with
      | Some c => if Ascii.eqb c "/" then trim_separators n' (String.substring 0 n' s) else s
      | None => s
      end
  end.

(** The file that a path names: the path without the "./" in front.  It
    is the key of the file on the disk, so that "./out/q.png" and
    "out/q.png" are one file. *)
Fixpoint clean (s : string) : string :=
  match s with
  | String c1 (String c2 (String _ _ as rest)) =>
      if Ascii.eqb c1 "." && Ascii.eqb c2 "/" then clean rest else s
  | _ => s
  end.

(** [filepath.Dir] on Unix for paths that [filepath.Clean] would only trim
    and free of the "./" in front. *)
Definition Dir (path : string) : string :=
  let i := last_separator path 0 0 in
  let prefix := String.substring 0 i path in
  if Nat.eqb i 0 then "."
  else
    let dir := trim_separators (String.length prefix) prefix in
    if String.eqb dir "" then "/" else clean dir.

Definition has_directory (path : string) (d : Disk) : bool :=
  String.eqb path "." || String.eqb path "/" ||
  match nodes d !! path with
  | Some Directory => true
  | _ => false
  end.

(** What lies above the file [key] is a regular file. *)
Definition under_file (key : string) (d : Disk) : bool :=
  negb (has_directory (Dir key) d) &&
  match nodes d !! Dir key with
  | Some (File _) => true
  | _ => false
  end.

Definition Stat (name : string) (d : Disk) : option error :=
  let key := clean name in
  if String.eqb name "" then Some (PathError "stat" name ENOENT)
  else if is_denied key d then Some (PathError "stat" name EACCES)
  else if under_file key d then Some (PathError "stat" name ENOTDIR)
  else
    match nodes d !! key with
    | Some _ => None
    | None => Some (PathError "stat" name ENOENT)
    end.

Definition Remove (name : string) (d : Disk) : Disk * option error :=
  let key := clean name in
  if is_denied key d then (d, Some (PathError "remove" name EACCES))
  else if under_file key d then (d, Some (PathError "remove" name ENOTDIR))
  else
    match nodes d !! key with
    | Some _ => ({| nodes := delete key (nodes d); denied := denied d |}, None)
    | None => (d, Some (PathError "remove" name ENOENT))
    end.

Definition MkdirAll (path : string) (perm : Z) (d : Disk) : Disk * option error :=
  let key := clean path in
  if is_denied key d then (d, Some (PathError "mkdir" path EACCES))
  else
    match nodes d !! key with
    | Some (File _) => (d, Some (PathError "mkdir" path ENOTDIR))
    | Some Directory => (d, None)
    | None =>
        if String.eqb key "." || String.eqb key "/" then (d, None)
        else ({| nodes := <[key := Directory]> (nodes d); denied := denied d |}, None)
    end.

Definition WriteFile (name : string) (data : list byte) (perm : Z) (d : Disk)
  : Disk * option error :=
  let key := clean name in
  if String.eqb name "" then (d, Some (PathError "open" name ENOENT))
  else if is_denied key d then (d, Some (PathError "open" name EACCES))
  else
    match nodes d !! key with
    | Some Directory => (d, Some (PathError "open" name EISDIR))
    | _ =>
        if has_directory (Dir key) d then
          ({| nodes := <[key := File data]> (nodes d); denied := denied d |}, None)
        else if under_file key d then (d, Some (PathError "open" name ENOTDIR))
        else (d, Some (PathError "open" name ENOENT))
    end.

Definition contents (d : Disk) (name : string) : option (list byte) :=
  match nodes d !! clean name with
  | Some (File data) => Some data
  | _ => None
  end.

#[global] Instance system : os.System Disk := {|
  os.Stat := Stat;
  os.Remove := Remove;
  os.MkdirAll := MkdirAll;
  os.WriteFile := WriteFile;
  os.Dir := Dir;
  os.contents := contents;
  os.resolve := fun _ name => clean name
|}.

Definition empty : Disk := {| nodes := ∅; denied := [] |}.

End memfs.

(** ** A stand-in encoder

    One implementation of [qrcode.Lib]: it refuses the empty content, and
    its PNG and its grid spell out what they were asked for. *)

Module standin.

Record Code := {
  Content : string;
  Level : qrcode.RecoveryLevel;
  DisableBorder : bool
}.

Definition letter (level : qrcode.RecoveryLevel) : string :=
  match level with
  | qrcode.Low => "L"
  | qrcode.Medium => "M"
  | qrcode.High => "Q"
  | qrcode.Highest => "H"
  end.

Definition New (content : string) (level : qrcode.RecoveryLevel) : result Code :=
  if String.eqb content "" then Err (errorString "no data to encode")
  else Ok {| Content := content; Level := level; DisableBorder := false |}.

Definition Encode (content : string) (level : qrcode.RecoveryLevel) (size : Z)
  : result (list byte) :=
  if String.eqb content "" then Err (errorString "no data to encode")
  else Ok (bytes_of_string ("PNG " +:+ letter level +:+ " " +:+ fmt.d size +:+ " " +:+ content)).

Definition ToSmallString (q : Code) (inverseColor : bool) : string :=
  (if DisableBorder q then "" else "#") +:+ (if inverseColor then "~" else "")
    +:+ letter (Level q) +:+ ":" +:+ Content q.

#[global] Instance lib : qrcode.Lib := {|
  qrcode.QRCode := Code;
  qrcode.New := New;
  qrcode.Encode := Encode;
  qrcode.set_DisableBorder := fun q b =>
    {| Content := Content q; Level := Level q; DisableBorder := b |};
  qrcode.ToSmallString := ToSmallString
|}.

(** The stand-in for [strings.Map(unicode.ToUpper, s)]: no mapping. *)
Definition unicode_upper (s : string) : string := s.

End standin.

(** * The vocabulary of the properties *)

(** The characters of [hex.EncodeToString]: two per byte, all of them
    digits or lowercase letters a to f. *)
Definition is_lower_hex (c : ascii) : bool :=
  existsb (Ascii.eqb c) (list_ascii_of_string hex.hextable).

(** A checksum as the handlers compute it: 64 lowercase hex characters. *)
Definition is_hex_digest (s : string) : Prop :=
  String.length s = 64%nat /\ forallb is_lower_hex (list_ascii_of_string s) = true.

Section Vocabulary.
Context {Disk : Type}.
Variable U : string -> string.

(** What error-correction resolution means for a Read handler over the
    struct [M]: with a configuration that decodes without error, the
    uppercased [error_correction] decides the level at which the encoder is
    called; any tag other than the five accepted ones leaves the world and
    the state as they were and adds the diagnostic that names the four
    options. *)
Definition resolves_level {M : Type}
    (ErrorCorrection Text SensitiveText : M -> types.String)
    (Read : World Disk -> datasource.ReadRequest.t M -> datasource.ReadResponse M ->
            World Disk * datasource.ReadResponse M)
  : Prop :=
  forall (w : World Disk) (req : datasource.ReadRequest.t M)
         (resp : datasource.ReadResponse M),
    let data := tfsdk.target (datasource.ReadRequest.Config req) in
    let resp0 :=
      datasource.Diagnostics_Append resp (tfsdk.diags (datasource.ReadRequest.Config req)) in
    let tag := strings.ToUpper U (types.ValueString (ErrorCorrection data)) in
    let qrText :=
      if types.IsNull (Text data) then types.ValueString (SensitiveText data)
      else types.ValueString (Text data) in
    let encodes_at level :=
      calls (fst (Read w req resp)) = calls w ++ [Call_qrcode_New qrText level] in
    diag.HasError (datasource.Diagnostics resp0) = false ->
    (tag = "L" -> encodes_at qrcode.Low) /\
    (tag = "M" \/ tag = "" -> encodes_at qrcode.Medium) /\
    (tag = "Q" -> encodes_at qrcode.High) /\
    (tag = "H" -> encodes_at qrcode.Highest) /\
    (tag <> "L" -> tag <> "M" -> tag <> "" -> tag <> "Q" -> tag <> "H" ->
     Read w req resp =
       (w, {| datasource.State := datasource.State resp;
              datasource.Diagnostics := datasource.Diagnostics resp0 ++
                [diag.NewErrorDiagnostic "Invalid Error Correction Level"
                   "Supported values: L (low), M (medium), Q (high), H (highest)."] |})).

(** The text that Create encodes. *)
Definition selected (plan : qrcodeResource.Model) : string :=
  if types.IsNull (qrcodeResource.Text plan)
  then types.ValueString (qrcodeResource.SensitiveText plan)
  else types.ValueString (qrcodeResource.Text plan).

(** The diagnostic of a size out of range. *)
Definition invalid_size : diag.Diagnostic :=
  diag.NewErrorDiagnostic "Invalid Size" "Size must be between 100 and 2000 pixels.".

(** The text that Read encodes. *)
Definition selected_data (data : QRCodeDataSource.Model) : string :=
  if types.IsNull (QRCodeDataSource.Text data)
  then types.ValueString (QRCodeDataSource.SensitiveText data)
  else types.ValueString (QRCodeDataSource.Text data).

(** The level that the switch of Read picks for an uppercased tag. *)
Definition level_of_tag (tag : string) : option qrcode.RecoveryLevel :=
  if String.eqb tag "L" then Some qrcode.Low
  else if String.eqb tag "M" || String.eqb tag "" then Some qrcode.Medium
  else if String.eqb tag "Q" then Some qrcode.High
  else if String.eqb tag "H" then Some qrcode.Highest
  else None.

(** Exactly one of the two attributes is supplied. *)
Definition exactly_one (text sensitive_text : types.String) : Prop :=
  types.IsNull text = negb (types.IsNull sensitive_text).

(** The validators that a schema declares accept a configuration in which
    [text] and [sensitive_text] are known or null exactly when one of the two
    is supplied. *)
Definition validates_exactly_one {M : Type} (s : schema.Schema) (attributes : M -> schema.Config)
    (Text SensitiveText : M -> types.String) : Prop :=
  forall m : M,
    types.IsUnknown (Text m) = false -> types.IsUnknown (SensitiveText m) = false ->
    (diag.HasError (schema.Validate s (attributes m)) = false
     <-> exactly_one (Text m) (SensitiveText m)).

(** A handler that is called through validation is not run on a
    configuration that validation refuses: the world and the state stay, and
    the diagnostics of validation are reported. *)
Definition refused_before_handler {W R : Type} (s : schema.Schema)
    (report : R -> diag.Diagnostics -> R) (handler : W -> R -> W * R) : Prop :=
  forall (config : schema.Config) (w : W) (resp : R),
    diag.HasError (schema.Validate s config) = true ->
    schema.validated s config report handler w resp
    = (w, report resp (schema.Validate s config)).

(** What Create computed, apart from the echo of the two text attributes. *)
Definition resource_outputs (resp : resource.Response qrcodeResource.Model) :=
  (resource.Diagnostics resp,
   option_map (fun m => (qrcodeResource.Size m, qrcodeResource.File m, qrcodeResource.SHA256 m))
     (resource.State resp)).

(** What Read computed, apart from the echo of the two text attributes. *)
Definition data_outputs (resp : datasource.ReadResponse QRCodeDataSource.Model) :=
  (datasource.Diagnostics resp,
   option_map (fun m => (QRCodeDataSource.ErrorCorrection m, QRCodeDataSource.DisableBorder m,
                         QRCodeDataSource.Invert m, QRCodeDataSource.ASCII m,
                         QRCodeDataSource.ASCIISHA256 m))
     (datasource.State resp)).

End Vocabulary.

Section WriteDisk.
Context {Disk : Type} {sys : os.System Disk}.

(** The disk on which Create writes: the one that the creation of the
    directory of [file] leaves. *)
Definition disk_at_write (w : World Disk) (file : types.String) : Disk :=
  fst (os.MkdirAll (os.Dir (types.ValueString file)) os.ModePerm (disk w)).

End WriteDisk.

(** ** Concrete requests, on the in-memory file system with the stand-in
    encoder *)

Module sample.

Definition world : World memfs.Disk := {| disk := memfs.empty; calls := [] |}.

Definition data (level : string) : QRCodeDataSource.Model :=
  {| QRCodeDataSource.Text := types.Known "qrcode";
     QRCodeDataSource.SensitiveText := types.Null;
     QRCodeDataSource.ErrorCorrection := types.Known level;
     QRCodeDataSource.DisableBorder := types.Null;
     QRCodeDataSource.Invert := types.Null;
     QRCodeDataSource.ASCII := types.Unknown;
     QRCodeDataSource.ASCIISHA256 := types.Unknown |}.

Definition read (level : string) : datasource.ReadRequest.t QRCodeDataSource.Model :=
  {| datasource.ReadRequest.Config := {| tfsdk.target := data level; tfsdk.diags := [] |} |}.

Definition no_data : datasource.ReadResponse QRCodeDataSource.Model :=
  {| datasource.State := None; datasource.Diagnostics := [] |}.

Definition plan (size : types.Int64) (file : string) : qrcodeResource.Model :=
  {| qrcodeResource.Text := types.Known "qrcode";
     qrcodeResource.SensitiveText := types.Null;
     qrcodeResource.Size := size;
     qrcodeResource.File := types.Known file;
     qrcodeResource.SHA256 := types.Unknown |}.

Definition create (size : types.Int64) (file : string)
  : resource.CreateRequest.t qrcodeResource.Model :=
  {| resource.CreateRequest.Config := None;
     resource.CreateRequest.Plan := {| tfsdk.target := plan size file; tfsdk.diags := [] |} |}.

Definition no_state : resource.Response qrcodeResource.Model :=
  {| resource.State := None; resource.Diagnostics := [] |}.

(** The state that Create leaves for [plan size file]. *)
Definition stored (size : types.Int64) (file : string) : qrcodeResource.Model :=
  {| qrcodeResource.Text := types.Known "qrcode";
     qrcodeResource.SensitiveText := types.Null;
     qrcodeResource.Size := size;
     qrcodeResource.File := types.Known file;
     qrcodeResource.SHA256 :=
       types.Known "483d47daaad510ad820b88fbb8f0e7e8577790e7a9d24d2e94d58c5fc725cabf" |}.

Definition in_state (m : qrcodeResource.Model) : resource.Response qrcodeResource.Model :=
  {| resource.State := Some m; resource.Diagnostics := [] |}.

Definition prior (m : qrcodeResource.Model) : tfsdk.Data qrcodeResource.Model :=
  {| tfsdk.target := m; tfsdk.diags := [] |}.

(** The disk after Create of [plan Null "out/q.png"]. *)
Definition created : World memfs.Disk :=
  fst (qrcodeResource.Create world (create types.Null "out/q.png") no_state).

(** The same disk, with every call on "out/q.png" refused. *)
Definition locked : World memfs.Disk :=
  {| disk := {| memfs.nodes := memfs.nodes (disk created); memfs.denied := ["out/q.png"] |};
     calls := [] |}.

Definition sensitive_plan (file : string) : qrcodeResource.Model :=
  {| qrcodeResource.Text := types.Null;
     qrcodeResource.SensitiveText := types.Known "qrcode";
     qrcodeResource.Size := types.Null;
     qrcodeResource.File := types.Known file;
     qrcodeResource.SHA256 := types.Unknown |}.

(** An update from "out/q.png" to [file]. *)
Definition update (file : string) : resource.UpdateRequest.t qrcodeResource.Model :=
  {| resource.UpdateRequest.Config := None;
     resource.UpdateRequest.Plan := prior (plan types.Null file);
     resource.UpdateRequest.State := prior (stored types.Null "out/q.png") |}.

(** A disk on which "out" is a regular file. *)
Definition blocked : World memfs.Disk :=
  {| disk := {| memfs.nodes := {[ "out" := memfs.File [] ]}; memfs.denied := [] |};
     calls := [] |}.

(** An update of the resource at "out/q.png": another text, and the same
    file spelled "./out/q.png". *)
Definition respelled : resource.UpdateRequest.t qrcodeResource.Model :=
  {| resource.UpdateRequest.Config := None;
     resource.UpdateRequest.Plan :=
       prior {| qrcodeResource.Text := types.Known "other";
                qrcodeResource.SensitiveText := types.Null;
                qrcodeResource.Size := types.Null;
                qrcodeResource.File := types.Known "./out/q.png";
                qrcodeResource.SHA256 := types.Unknown |};
     resource.UpdateRequest.State := prior (stored types.Null "out/q.png") |}.

Definition read_state (file : string) : resource.ReadRequest.t qrcodeResource.Model :=
  {| resource.ReadRequest.State := prior (stored types.Null file) |}.

Definition delete (file : string) : resource.DeleteRequest.t qrcodeResource.Model :=
  {| resource.DeleteRequest.State := prior (stored types.Null file) |}.

End sample.

(** ** The rest of the package: registration, the struct tags, the test
    helper *)

(** What the theorems about one handler after another assume of the file
    system, beside [os.Laws]: a file that was written can be statted, and a
    removal changes what is found at the paths that name the file removed,
    and at no other. *)
Class SequenceLaws {Disk : Type} (sys : os.System Disk) := {
  WriteFile_Stat : forall name data perm d d',
    os.WriteFile name data perm d = (d', None) -> os.Stat name d' = None;
  Remove_frame : forall name d other,
    os.resolve d other <> os.resolve d name ->
    os.contents (fst (os.Remove name d)) other = os.contents d other
}.

(** *** internal/provider/provider.go *)

Module provider.

(** [provider.MetadataResponse] *)
Record MetadataResponse := {
  TypeName : string;
  Version : string
}.

(** [resource.MetadataRequest] and [datasource.MetadataRequest] *)
Record MetadataRequest := { ProviderTypeName : string }.

(** What the provider shell uses of a registered data source or resource:
    its type name for a request and its schema. *)
Record Handler := {
  Metadata : MetadataRequest -> string;
  Schema : schema.Schema
}.

End provider.

Module qrcodeProvider.

(** qrcodeProvider is the provider implementation. *)
Record t := { version : string }.

(** New is a helper function to simplify provider server and testing
    implementation. *)
Definition New (version : string) : unit -> t :=
  fun _ => {| version := version |}.

(** Metadata returns the provider type name. *)
Definition Metadata (p : t) (resp : provider.MetadataResponse) : provider.MetadataResponse :=
  {| provider.TypeName := "qrcode"; provider.Version := version p |}.

(** [resp.TypeName = req.ProviderTypeName + "_generate"], the Metadata of
    the data source (in both files) and of the resource. *)
Definition generate_TypeName (req : provider.MetadataRequest) : string :=
  provider.ProviderTypeName req +:+ "_generate".

Definition NewQRCodeDataSource : unit -> provider.Handler :=
  fun _ => {| provider.Metadata := generate_TypeName;
              provider.Schema := QRCodeDataSource.Schema |}.

Definition NewQRCodeResource : unit -> provider.Handler :=
  fun _ => {| provider.Metadata := generate_TypeName;
              provider.Schema := qrcodeResource.Schema |}.

(** DataSources defines the data sources implemented in the provider. *)
Definition DataSources (p : t) : list (unit -> provider.Handler) := [NewQRCodeDataSource].

(** Resources defines the resources implemented in the provider. *)
Definition Resources (p : t) : list (unit -> provider.Handler) := [NewQRCodeResource].

(** The type names under which the host finds the handlers of a list: it
    asks the provider for its type name and each handler for its own. *)
Definition type_names (p : t) (handlers : list (unit -> provider.Handler)) : list string :=
  let meta := Metadata p {| provider.TypeName := ""; provider.Version := "" |} in
  map (fun make =>
         provider.Metadata (make tt) {| provider.ProviderTypeName := provider.TypeName meta |})
      handlers.

End qrcodeProvider.

(** *** The structs of the handlers: tfsdk tag and type of each field, in
    the order of the declaration *)

Module fields.

Definition qrcodeResource : list (string * schema.Kind) :=
  [ ("text", schema.StringAttribute);
    ("sensitive_text", schema.StringAttribute);
    ("size", schema.Int64Attribute);
    ("file", schema.StringAttribute);
    ("sha256", schema.StringAttribute) ].

Definition QRCodeDataSourceAscii : list (string * schema.Kind) :=
  [ ("text", schema.StringAttribute);
    ("sensitive_text", schema.StringAttribute);
    ("error_correction", schema.StringAttribute);
    ("disable_border", schema.BoolAttribute);
    ("invert", schema.BoolAttribute);
    ("ascii", schema.StringAttribute) ].

Definition QRCodeDataSource : list (string * schema.Kind) :=
  QRCodeDataSourceAscii ++ [ ("ascii_sha256", schema.StringAttribute) ].

(** The attributes of a schema with their types. *)
Definition of_schema (s : schema.Schema) : list (string * schema.Kind) :=
  map (fun na => (fst na, schema.kind (snd na))) s.

(** An attribute is exactly one of required, optional and computed. *)
Definition one_role (a : schema.Attribute) : bool :=
  match schema.Required a, schema.Optional a, schema.Computed a with
  | true, false, false | false, true, false | false, false, true => true
  | _, _, _ => false
  end.

(** The names that the validators of a schema refer to. *)
Definition validator_paths (s : schema.Schema) : list string :=
  concat (map (fun na =>
                 concat (map (fun v => match v with schema.ExactlyOneOf paths => paths end)
                           (schema.Validators (snd na))))
            s).

End fields.

(** *** The acceptance test of the resource *)

Section AcceptanceTest.
Context {Disk : Type} {sys : os.System Disk}.

(** calculateSHA256 computes the SHA-256 checksum of a file: the file is
    opened and copied into the hash; [None] stands for the error of either
    step. *)
Definition calculateSHA256 (filePath : string) (d : Disk) : option string :=
  match os.contents d filePath with
  | Some data => Some (hex.EncodeToString (sha256.Sum256 data))
  | None => None
  end.

(** The first check of the test: the file is generated. *)
Definition file_generated (filePath : string) (d : Disk) : bool :=
  negb (os.IsNotExist (os.Stat filePath d)).

End AcceptanceTest.

(** *** From one data source file to the other *)

Module ascii_only.

(** The struct of data_source_qrcode.go out of the struct with
    [ascii_sha256]. *)
Definition model (m : QRCodeDataSource.Model) : QRCodeDataSourceAscii.Model :=
  {| QRCodeDataSourceAscii.Text := QRCodeDataSource.Text m;
     QRCodeDataSourceAscii.SensitiveText := QRCodeDataSource.SensitiveText m;
     QRCodeDataSourceAscii.ErrorCorrection := QRCodeDataSource.ErrorCorrection m;
     QRCodeDataSourceAscii.DisableBorder := QRCodeDataSource.DisableBorder m;
     QRCodeDataSourceAscii.Invert := QRCodeDataSource.Invert m;
     QRCodeDataSourceAscii.ASCII := QRCodeDataSource.ASCII m |}.

Definition request (req : datasource.ReadRequest.t QRCodeDataSource.Model)
  : datasource.ReadRequest.t QRCodeDataSourceAscii.Model :=
  {| datasource.ReadRequest.Config :=
       {| tfsdk.target := model (tfsdk.target (datasource.ReadRequest.Config req));
          tfsdk.diags := tfsdk.diags (datasource.ReadRequest.Config req) |} |}.

Definition response (resp : datasource.ReadResponse QRCodeDataSource.Model)
  : datasource.ReadResponse QRCodeDataSourceAscii.Model :=
  {| datasource.State := option_map model (datasource.State resp);
     datasource.Diagnostics := datasource.Diagnostics resp |}.

End ascii_only.

(** *** More of the vocabulary *)

(** The diagnostic of an [error_correction] that is not accepted. *)
Definition invalid_level : diag.Diagnostic :=
  diag.NewErrorDiagnostic "Invalid Error Correction Level"
    "Supported values: L (low), M (medium), Q (high), H (highest).".

(** The spellings of [error_correction] that Read accepts. *)
Definition accepted_levels : list string := ["L"; "l"; "M"; "m"; ""; "Q"; "q"; "H"; "h"].

(** The size that Create encodes at, when it gets that far. *)
Definition resolved_size (plan : qrcodeResource.Model) : Z :=
  if types.IsNull (qrcodeResource.Size plan) then qrcodeResource.defaultSize
  else int (types.ValueInt64 (qrcodeResource.Size plan)).

(** The summaries of the errors that Create reports. *)
Definition Create_summaries : list string :=
  [ "Invalid Size"; "QR Code Generation Failed"; "Failed to Create Directory";
    "Failed to Save QR Code" ].

(** What Read of the data source computed, with the echo of the texts and
    without the echo of [error_correction], [disable_border] and [invert]. *)
Definition data_results (resp : datasource.ReadResponse QRCodeDataSource.Model) :=
  (datasource.Diagnostics resp,
   option_map (fun m => (QRCodeDataSource.Text m, QRCodeDataSource.SensitiveText m,
                         QRCodeDataSource.ASCII m, QRCodeDataSource.ASCIISHA256 m))
     (datasource.State resp)).

(** A request of the resource around a struct that decodes with [diags]. *)
Definition create_request (plan : qrcodeResource.Model) (diags : diag.Diagnostics)
  : resource.CreateRequest.t qrcodeResource.Model :=
  {| resource.CreateRequest.Config := None;
     resource.CreateRequest.Plan := {| tfsdk.target := plan; tfsdk.diags := diags |} |}.

Definition read_request (state : qrcodeResource.Model)
  : resource.ReadRequest.t qrcodeResource.Model :=
  {| resource.ReadRequest.State := {| tfsdk.target := state; tfsdk.diags := [] |} |}.

Definition delete_request (state : qrcodeResource.Model)
  : resource.DeleteRequest.t qrcodeResource.Model :=
  {| resource.DeleteRequest.State := {| tfsdk.target := state; tfsdk.diags := [] |} |}.

Definition update_request (plan prior : qrcodeResource.Model)
  : resource.UpdateRequest.t qrcodeResource.Model :=
  {| resource.UpdateRequest.Config := None;
     resource.UpdateRequest.Plan := {| tfsdk.target := plan; tfsdk.diags := [] |};
     resource.UpdateRequest.State := {| tfsdk.target := prior; tfsdk.diags := [] |} |}.

(** The response that the host hands to a handler of a resource in
    [state], without diagnostics. *)
Definition response_with (state : option qrcodeResource.Model)
  : resource.Response qrcodeResource.Model :=
  {| resource.State := state; resource.Diagnostics := [] |}.

(** The size check of Create refuses the plan. *)
Definition size_refused (plan : qrcodeResource.Model) : bool :=
  negb (types.IsNull (qrcodeResource.Size plan)) &&
  ((int (types.ValueInt64 (qrcodeResource.Size plan)) <? qrcodeResource.minSize)
   || (int (types.ValueInt64 (qrcodeResource.Size plan)) >? qrcodeResource.maxSize)).

(** *** More concrete requests *)

Module more.

(** A plan whose text the stand-in encoder refuses. *)
Definition empty_text : qrcodeResource.Model :=
  {| qrcodeResource.Text := types.Known "";
     qrcodeResource.SensitiveText := types.Null;
     qrcodeResource.Size := types.Null;
     qrcodeResource.File := types.Known "out/q.png";
     qrcodeResource.SHA256 := types.Unknown |}.

Definition data (text level : string) (disable_border invert : types.Bool)
  : QRCodeDataSource.Model :=
  {| QRCodeDataSource.Text := types.Known text;
     QRCodeDataSource.SensitiveText := types.Null;
     QRCodeDataSource.ErrorCorrection := types.Known level;
     QRCodeDataSource.DisableBorder := disable_border;
     QRCodeDataSource.Invert := invert;
     QRCodeDataSource.ASCII := types.Unknown;
     QRCodeDataSource.ASCIISHA256 := types.Unknown |}.

Definition read (text level : string) : datasource.ReadRequest.t QRCodeDataSource.Model :=
  {| datasource.ReadRequest.Config :=
       {| tfsdk.target := data text level types.Null types.Null; tfsdk.diags := [] |} |}.

(** The world after Create of "out/q.png", then an Update to "out/r.png". *)
Definition updated : World memfs.Disk :=
  fst (qrcodeResource.Update sample.created (sample.update "out/r.png")
         (sample.in_state (sample.stored types.Null "out/q.png"))).

End more.

(** * Properties *)

(** ** The pieces of the standard library *)

(** Known digests: the empty message, "abc" and a message of two blocks. *)
Example sha256_empty :
  hex.EncodeToString (sha256.Sum256 []) =
  "e3b0c44298fc1c149afbf4c8996fb92427ae41e4649b934ca495991b7852b855".
Proof. vm_compute. reflexivity. Qed.

Example sha256_abc :
  hex.EncodeToString (sha256.Sum256 (bytes_of_string "abc")) =
  "ba7816bf8f01cfea414140de5dae2223b00361a396177a9cb410ff61f20015ad".
Proof. vm_compute. reflexivity. Qed.

Example sha256_two_blocks :
  hex.EncodeToString
    (sha256.Sum256 (bytes_of_string "abcdbcdecdefdefgefghfghighijhijkijkljklmklmnlmnomnopnopq")) =
  "248d6a61d20638b8e5c026930c3e6039a33ce45964ff2167f6ecedd419db06c1".
Proof. vm_compute. reflexivity. Qed.

Example fmt_d_samples :
  fmt.d 100 = "100" /\ fmt.d 2000 = "2000" /\ fmt.d 0 = "0" /\ fmt.d (-305) = "-305".
Proof. repeat split; reflexivity. Qed.

Example size_detail_text :
  qrcodeResource.size_detail = "Size must be between 100 and 2000 pixels.".
Proof. reflexivity. Qed.

Example ToUpper_letters (U : string -> string) :
  strings.ToUpper U "l" = "L" /\ strings.ToUpper U "m" = "M" /\
  strings.ToUpper U "q" = "Q" /\ strings.ToUpper U "h" = "H" /\
  strings.ToUpper U "H" = "H" /\ strings.ToUpper U "" = "" /\
  strings.ToUpper U "low" = "LOW".
Proof. repeat split; reflexivity. Qed.

Lemma int_of_int64 x : is_int64 x -> int x = x.
Proof.
  unfold is_int64, int. intros Hx.
  rewrite Z.mod_small; lia.
Qed.

(** A digest has 32 bytes. *)
Lemma sha256_block_length h chunk : length h = 8%nat -> length (sha256.block h chunk) = 8%nat.
Proof.
  intros Hh. unfold sha256.block.
  rewrite length_map, length_combine, Hh. reflexivity.
Qed.

Lemma sha256_blocks_length n : forall h data,
  length h = 8%nat -> length (sha256.blocks n h data) = 8%nat.
Proof.
  induction n as [|n IH]; intros h data Hh; simpl.
  - exact Hh.
  - apply IH. now apply sha256_block_length.
Qed.

Lemma length_concat_words (h : list Z) :
  length (concat (map sha256.bytes_of_word h)) = (4 * length h)%nat.
Proof.
  induction h as [|x h IH]; simpl; [reflexivity|].
  rewrite IH. lia.
Qed.

Lemma Sum256_length data : length (sha256.Sum256 data) = 32%nat.
Proof.
  unfold sha256.Sum256.
  rewrite length_map, length_concat_words, sha256_blocks_length; reflexivity.
Qed.

Lemma hex_digit_lower n : is_lower_hex (hex.digit n) = true.
Proof.
  unfold hex.digit.
  destruct (Z.to_nat n) as [|[|[|[|[|[|[|[|[|[|[|[|[|[|[|[|k]]]]]]]]]]]]]]]];
    reflexivity.
Qed.

Lemma EncodeToString_lower src :
  forallb is_lower_hex (list_ascii_of_string (hex.EncodeToString src)) = true.
Proof.
  induction src as [|v rest IH]; simpl; [reflexivity|].
  rewrite !hex_digit_lower. exact IH.
Qed.

Lemma EncodeToString_length src :
  String.length (hex.EncodeToString src) = (2 * length src)%nat.
Proof.
  induction src as [|v rest IH]; simpl; [reflexivity|].
  rewrite IH. lia.
Qed.

Lemma hex_Sum256_is_digest data : is_hex_digest (hex.EncodeToString (sha256.Sum256 data)).
Proof.
  split.
  - rewrite EncodeToString_length, Sum256_length. reflexivity.
  - apply EncodeToString_lower.
Qed.

(** ** Diagnostics *)

Lemma Contains_In diags d : diag.Contains diags d = true <-> In d diags.
Proof.
  unfold diag.Contains. rewrite existsb_exists. split.
  - intros [x [Hin Heq]]. apply bool_decide_eq_true in Heq. now subst.
  - intros Hin. exists d. split; [exact Hin|]. now apply bool_decide_eq_true.
Qed.

Lemma In_Append new : forall diags d,
  In d (diag.Append diags new) <-> In d diags \/ In d new.
Proof.
  induction new as [|x new IH]; intros diags d; simpl.
  - tauto.
  - rewrite IH. destruct (diag.Contains diags x) eqn:Hc.
    + apply Contains_In in Hc. split; [tauto|].
      intros [H|[H|H]]; subst; tauto.
    + rewrite in_app_iff. simpl. tauto.
Qed.

Lemma HasError_In diags :
  diag.HasError diags = true <-> exists d, In d diags /\ diag.is_error d = true.
Proof. unfold diag.HasError. apply existsb_exists. Qed.

Lemma HasError_Append diags new :
  diag.HasError (diag.Append diags new) = diag.HasError diags || diag.HasError new.
Proof.
  apply eq_true_iff_eq. rewrite orb_true_iff, !HasError_In. split.
  - intros [d [Hin He]]. apply In_Append in Hin. destruct Hin; [left|right]; eauto.
  - intros [[d [Hin He]]|[d [Hin He]]]; exists d; rewrite In_Append; auto.
Qed.

Lemma HasError_AddError diags summary detail :
  diag.HasError (diag.AddError diags summary detail) = true.
Proof.
  unfold diag.AddError. rewrite HasError_Append. simpl. apply orb_true_r.
Qed.

(** On a collection without errors [AddError] appends. *)
Lemma AddError_fresh diags summary detail :
  diag.HasError diags = false ->
  diag.AddError diags summary detail = diags ++ [diag.NewErrorDiagnostic summary detail].
Proof.
  intros Hne. unfold diag.AddError. simpl.
  destruct (diag.Contains diags (diag.NewErrorDiagnostic summary detail)) eqn:Hc;
    [|reflexivity].
  apply Contains_In in Hc.
  assert (diag.HasError diags = true) as Habs
    by (apply HasError_In; eexists; split; [exact Hc|reflexivity]).
  congruence.
Qed.

Lemma AddError_fresh_HasError (diags : diag.Diagnostics) (d : diag.Diagnostic) :
  diag.is_error d = true -> diag.HasError (diags ++ [d]) = true.
Proof.
  intros He. unfold diag.HasError. rewrite existsb_app. simpl. rewrite He.
  now rewrite orb_true_r.
Qed.

Lemma not_In_error diags d :
  diag.HasError diags = false -> diag.is_error d = true -> ~ In d diags.
Proof.
  intros Hne He Hin.
  assert (diag.HasError diags = true) by (apply HasError_In; eauto).
  congruence.
Qed.

(** ** The data source *)

Section DataSource.
Context {Disk : Type} {sys : os.System Disk} {lib : qrcode.Lib}.
Variable U : string -> string.

Import datasource.

Ltac level_case :=
  repeat match goal with
  | |- context [String.eqb ?a ?b] =>
      let E := fresh "E" in
      destruct (String.eqb_spec a b) as [E|E]; try congruence; simpl
  end.

Ltac after_New :=
  match goal with
  | |- context [qrcode.New ?t ?l] => destruct (qrcode.New t l); reflexivity
  end.

Lemma Read_resolves_level :
  resolves_level (Disk := Disk) U QRCodeDataSource.ErrorCorrection QRCodeDataSource.Text
    QRCodeDataSource.SensitiveText (QRCodeDataSource.Read U).
Proof.
  intros w [[data diags]] resp. simpl. intros Hok.
  unfold QRCodeDataSource.Read, qrcode_New. simpl. rewrite Hok.
  set (tag := strings.ToUpper U _).
  repeat split.
  - intros ->. simpl. destruct (types.IsNull _); simpl; after_New.
  - intros [-> | ->]; simpl; destruct (types.IsNull _); simpl; after_New.
  - intros ->. simpl. destruct (types.IsNull _); simpl; after_New.
  - intros ->. simpl. destruct (types.IsNull _); simpl; after_New.
  - intros. level_case. unfold Diagnostics_AddError. simpl.
    rewrite AddError_fresh by exact Hok. reflexivity.
Qed.

Lemma ReadAscii_resolves_level :
  resolves_level (Disk := Disk) U QRCodeDataSourceAscii.ErrorCorrection QRCodeDataSourceAscii.Text
    QRCodeDataSourceAscii.SensitiveText (QRCodeDataSourceAscii.Read U).
Proof.
  intros w [[data diags]] resp. simpl. intros Hok.
  unfold QRCodeDataSourceAscii.Read, qrcode_New. simpl. rewrite Hok.
  set (tag := strings.ToUpper U _).
  repeat split.
  - intros ->. simpl. destruct (types.IsNull _); simpl; after_New.
  - intros [-> | ->]; simpl; destruct (types.IsNull _); simpl; after_New.
  - intros ->. simpl. destruct (types.IsNull _); simpl; after_New.
  - intros ->. simpl. destruct (types.IsNull _); simpl; after_New.
  - intros. level_case. unfold Diagnostics_AddError. simpl.
    rewrite AddError_fresh by exact Hok. reflexivity.
Qed.

End DataSource.

(** C1.  Error-correction resolution in the data source Read, in both files
    that declare it: the level is decided by the uppercased
    [error_correction]: "L" gives Low, "M" and the empty string give Medium,
    "Q" gives High and "H" gives Highest, the level at which the encoder is
    then called; for every other string Read adds the error diagnostic
    "Invalid Error Correction Level", whose detail names the four options,
    and returns with the world and the state as they were. *)
Theorem error_correction_resolution :
  forall (Disk : Type) (sys : os.System Disk) (lib : qrcode.Lib) (U : string -> string),
    resolves_level (Disk := Disk) U QRCodeDataSource.ErrorCorrection QRCodeDataSource.Text
      QRCodeDataSource.SensitiveText (QRCodeDataSource.Read U) /\
    resolves_level (Disk := Disk) U QRCodeDataSourceAscii.ErrorCorrection QRCodeDataSourceAscii.Text
      QRCodeDataSourceAscii.SensitiveText (QRCodeDataSourceAscii.Read U).
Proof.
  intros. split.
  - apply Read_resolves_level.
  - apply ReadAscii_resolves_level.
Qed.

(** With [error_correction = "q"] the encoder is called at High; with "x"
    the diagnostic is the whole outcome. *)
Lemma error_correction_resolution_witness :
  calls (fst (QRCodeDataSource.Read standin.unicode_upper sample.world (sample.read "q")
                sample.no_data))
  = [Call_qrcode_New "qrcode" qrcode.High] /\
  QRCodeDataSource.Read standin.unicode_upper sample.world (sample.read "x") sample.no_data
  = (sample.world,
     {| datasource.State := None;
        datasource.Diagnostics :=
          [diag.NewErrorDiagnostic "Invalid Error Correction Level"
             "Supported values: L (low), M (medium), Q (high), H (highest)."] |}).
Proof.
  split.
  - destruct (proj1 (error_correction_resolution memfs.Disk _ _ standin.unicode_upper)
                sample.world (sample.read "q") sample.no_data eq_refl)
      as (_ & _ & HQ & _).
    exact (HQ eq_refl).
  - destruct (proj1 (error_correction_resolution memfs.Disk _ _ standin.unicode_upper)
                sample.world (sample.read "x") sample.no_data eq_refl)
      as (_ & _ & _ & _ & Hother).
    apply Hother; discriminate.
Defined.

(** ** The resource *)

Section Resource.
Context {Disk : Type} {sys : os.System Disk} {lib : qrcode.Lib}.

Import resource.
Import qrcodeResource.

Ltac step :=
  match goal with
  | |- context [qrcode.Encode ?t ?l ?s] =>
      let E := fresh "Eenc" in destruct (qrcode.Encode t l s) eqn:E; simpl
  | |- context [os.MkdirAll ?p ?m ?d] =>
      let E := fresh "Edir" in destruct (os.MkdirAll p m d) as [? [?|]] eqn:E; simpl
  | |- context [os.WriteFile ?p ?b ?m ?d] =>
      let E := fresh "Ewr" in destruct (os.WriteFile p b m d) as [? [?|]] eqn:E; simpl
  end.

Ltac run_Create := unfold Create, qrcode_Encode, os_MkdirAll, os_WriteFile; simpl.

Ltac from_calls :=
  simpl; rewrite <- ?app_assoc; simpl; eexists; reflexivity.

(** After the size check Create calls the encoder first. *)
Lemma Create_calls_Encode (w : World Disk) (req : CreateRequest.t Model) (resp : Response Model)
    (size : Z) :
  let plan := tfsdk.target (CreateRequest.Plan req) in
  diag.HasError (Diagnostics (Diagnostics_Append resp (tfsdk.diags (CreateRequest.Plan req))))
    = false ->
  (if negb (types.IsNull (Size plan)) then
     let sizeVal := int (types.ValueInt64 (Size plan)) in
     if (sizeVal <? minSize) || (sizeVal >? maxSize) then None else Some sizeVal
   else Some defaultSize) = Some size ->
  exists rest,
    calls (fst (Create w req resp))
    = calls w ++ Call_qrcode_Encode (selected plan) qrcode.Medium size :: rest.
Proof.
  destruct req as [cfg [plan diags]]. simpl. intros Hok Hsize.
  run_Create. simpl in Hok. rewrite Hok.
  assert (Hsel : (if negb (types.IsNull (Text plan)) then types.ValueString (Text plan)
                  else types.ValueString (SensitiveText plan)) = selected plan)
    by (unfold selected; destruct (types.IsNull (Text plan)); reflexivity).
  rewrite Hsel.
  destruct (negb (types.IsNull (Size plan))).
  - destruct ((int (types.ValueInt64 (Size plan)) <? minSize)
              || (int (types.ValueInt64 (Size plan)) >? maxSize)); [discriminate|].
    injection Hsize as <-. repeat step; from_calls.
  - injection Hsize as <-. repeat step; from_calls.
Qed.

(** In range, the diagnostics of Create do not hold [invalid_size]. *)
Lemma Create_in_range_no_invalid (w : World Disk) (req : CreateRequest.t Model)
    (resp : Response Model) :
  let plan := tfsdk.target (CreateRequest.Plan req) in
  diag.HasError (Diagnostics (Diagnostics_Append resp (tfsdk.diags (CreateRequest.Plan req))))
    = false ->
  ((int (types.ValueInt64 (Size plan)) <? minSize)
   || (int (types.ValueInt64 (Size plan)) >? maxSize)) = false ->
  ~ In invalid_size (Diagnostics (snd (Create w req resp))).
Proof.
  destruct req as [cfg [plan diags]]. simpl. intros Hok Hrange.
  run_Create. simpl in Hok. rewrite Hok.
  pose proof (not_In_error _ invalid_size Hok eq_refl) as Hfresh.
  rewrite Hrange.
  destruct (negb (types.IsNull (Size plan))); repeat step;
    rewrite ?AddError_fresh by exact Hok;
    rewrite ?in_app_iff; simpl; try exact Hfresh;
    intros [Hin|[Heq|[]]]; try (now apply Hfresh); discriminate Heq.
Qed.

(** C2.  The size in Create.  With a plan that decodes without error: when
    [size] is null the encoder is called with 256; when [size] is a known
    integer [v], the diagnostic "Invalid Size" is among those of the response
    exactly when [v < 100] or [v > 2000]; in that case Create returns with
    the world as it was (no call to the encoder, no directory, no file) and
    the state as it was; otherwise the encoder is called with [v]. *)
Theorem Create_size_bounds (w : World Disk) (req : CreateRequest.t Model) (resp : Response Model) :
  let plan := tfsdk.target (CreateRequest.Plan req) in
  let resp0 := Diagnostics_Append resp (tfsdk.diags (CreateRequest.Plan req)) in
  let r := Create w req resp in
  diag.HasError (Diagnostics resp0) = false ->
  (Size plan = types.Null ->
   exists rest,
     calls (fst r) = calls w ++ Call_qrcode_Encode (selected plan) qrcode.Medium 256 :: rest) /\
  (forall v : Z, Size plan = types.Known v -> is_int64 v ->
     (In invalid_size (Diagnostics (snd r)) <-> v < 100 \/ v > 2000) /\
     (v < 100 \/ v > 2000 ->
      r = (w, {| State := State resp; Diagnostics := Diagnostics resp0 ++ [invalid_size] |})) /\
     (100 <= v <= 2000 ->
      exists rest,
        calls (fst r) = calls w ++ Call_qrcode_Encode (selected plan) qrcode.Medium v :: rest)).
Proof.
  intros plan resp0 r Hok. split.
  - intros Hnull. apply Create_calls_Encode; [exact Hok|].
    fold plan. rewrite Hnull. reflexivity.
  - intros v Hv Hint.
    assert (Hout : v < 100 \/ v > 2000 ->
              r = (w, {| State := State resp;
                         Diagnostics := Diagnostics resp0 ++ [invalid_size] |})).
    { intros Hrange. subst r resp0 plan. destruct req as [cfg [plan diags]].
      simpl in *. run_Create. rewrite Hok, Hv. simpl.
      rewrite (int_of_int64 v Hint).
      replace ((v <? minSize) || (v >? maxSize)) with true
        by (symmetry; apply orb_true_iff; unfold minSize, maxSize; lia).
      unfold Diagnostics_AddError. simpl. rewrite AddError_fresh by exact Hok.
      reflexivity. }
    assert (Hin : 100 <= v <= 2000 ->
              ((int (types.ValueInt64 (Size plan)) <? minSize)
               || (int (types.ValueInt64 (Size plan)) >? maxSize)) = false).
    { intros Hrange. rewrite Hv. simpl. rewrite (int_of_int64 v Hint).
      apply orb_false_iff. unfold minSize, maxSize. lia. }
    split; [|split].
    + split.
      * intros Hdiag. destruct (Z_lt_dec v 100); [now left|].
        destruct (Z_gt_dec v 2000); [now right|].
        exfalso. apply (Create_in_range_no_invalid w req resp Hok); [apply Hin; lia|].
        exact Hdiag.
      * intros Hrange. rewrite (Hout Hrange). simpl.
        apply in_or_app. right. now left.
    + exact Hout.
    + intros Hrange. apply Create_calls_Encode; [exact Hok|].
      fold plan. specialize (Hin Hrange). rewrite Hv in *. simpl in *.
      rewrite Hin. rewrite (int_of_int64 v Hint). reflexivity.
Qed.

(** A Create that ends without an error diagnostic started without one. *)
Lemma Create_ok_decoded (w : World Disk) (req : CreateRequest.t Model) (resp : Response Model) :
  diag.HasError (Diagnostics (snd (Create w req resp))) = false ->
  diag.HasError (Diagnostics (Diagnostics_Append resp (tfsdk.diags (CreateRequest.Plan req))))
    = false.
Proof.
  destruct req as [cfg [plan diags]]. run_Create.
  destruct (diag.HasError (diag.Append (Diagnostics resp) diags)) eqn:Hok; simpl;
    [|reflexivity].
  intros Hfinal. rewrite <- Hfinal. symmetry. exact Hok.
Qed.

(** C3.  A Create that ends without an error diagnostic has encoded the
    selected text at Medium with the resolved size (256 for a null [size]),
    made the directory of [file] with os.ModePerm, and written the PNG to
    [file] with mode 0644, in this order and with no other call; the file
    then holds exactly those bytes; the state holds the attributes of the
    plan unchanged, and [sha256] is the hex SHA-256 digest of the same
    bytes, 64 characters among 0-9 and a-f. *)
Theorem Create_success (laws : os.Laws sys)
    (w : World Disk) (req : CreateRequest.t Model) (resp : Response Model) :
  let plan := tfsdk.target (CreateRequest.Plan req) in
  let r := Create w req resp in
  let size :=
    if types.IsNull (Size plan) then defaultSize else int (types.ValueInt64 (Size plan)) in
  let filePath := types.ValueString (File plan) in
  diag.HasError (Diagnostics (snd r)) = false ->
  exists pngData : list byte,
    qrcode.Encode (selected plan) qrcode.Medium size = Ok pngData /\
    calls (fst r) =
      calls w ++ [ Call_qrcode_Encode (selected plan) qrcode.Medium size;
                   Call_os_MkdirAll (os.Dir filePath) os.ModePerm;
                   Call_os_WriteFile filePath pngData 0x1a4 ] /\
    os.contents (disk (fst r)) filePath = Some pngData /\
    State (snd r) =
      Some {| Text := Text plan;
              SensitiveText := SensitiveText plan;
              Size := Size plan;
              File := File plan;
              SHA256 := types.StringValue (hex.EncodeToString (sha256.Sum256 pngData)) |} /\
    is_hex_digest (hex.EncodeToString (sha256.Sum256 pngData)).
Proof.
  intros plan r size filePath Hfinal.
  pose proof (Create_ok_decoded w req resp Hfinal) as Hok.
  subst r size filePath plan. destruct req as [cfg [plan diags]]. simpl in *.
  revert Hfinal. run_Create. rewrite Hok.
  assert (Hsel : (if negb (types.IsNull (Text plan)) then types.ValueString (Text plan)
                  else types.ValueString (SensitiveText plan)) = selected plan)
    by (unfold selected; destruct (types.IsNull (Text plan)); reflexivity).
  rewrite Hsel.
  destruct (types.IsNull (Size plan)); simpl.
  2: destruct ((int (types.ValueInt64 (Size plan)) <? minSize)
               || (int (types.ValueInt64 (Size plan)) >? maxSize)); simpl.
  all: repeat step; rewrite ?HasError_AddError; try discriminate; intros _.
  all: eexists; split; [reflexivity|]; split; [now rewrite <- !app_assoc|].
  all: split; [eapply os.WriteFile_contents; eassumption|].
  all: split; [reflexivity|apply hex_Sum256_is_digest].
Qed.

(** *** Read *)

(** C5, amended.  Read of a state that decodes without error.  When [file]
    is neither null nor empty, Read stats the path and does nothing else to
    the world: if the stat answers that the file does not exist
    (os.IsNotExist), the resource is removed from state and no diagnostic is
    added; otherwise (the file exists, or the stat failed for another reason,
    such as ENOTDIR or EACCES) the response is left as it was.  When [file] is null or empty, Read returns at once: no stat, and
    the state stays. *)
Theorem Read_missing_file (w : World Disk) (req : ReadRequest.t Model) (resp : Response Model) :
  let state := tfsdk.target (ReadRequest.State req) in
  let resp0 := Diagnostics_Append resp (tfsdk.diags (ReadRequest.State req)) in
  let filePath := types.ValueString (File state) in
  let r := Read w req resp in
  diag.HasError (Diagnostics resp0) = false ->
  (types.IsNull (File state) = false -> filePath <> "" ->
     fst r = record (Call_os_Stat filePath) w /\
     (os.IsNotExist (os.Stat filePath (disk w)) = true ->
      snd r = {| State := None; Diagnostics := Diagnostics resp0 |}) /\
     (os.IsNotExist (os.Stat filePath (disk w)) = false -> snd r = resp0) /\
     (os.Stat filePath (disk w) = None -> State (snd r) = State resp)) /\
  (types.IsNull (File state) = true \/ filePath = "" -> r = (w, resp0)).
Proof.
  intros state resp0 filePath r Hok.
  subst r resp0 filePath state. destruct req as [[state diags]]. simpl in *.
  unfold Read, os_Stat. simpl. rewrite Hok. split.
  - intros Hnull Hne. rewrite Hnull. simpl.
    destruct (String.eqb_spec (types.ValueString (File state)) "") as [E|_]; [contradiction|].
    split; [|split; [|split]].
    + destruct (os.IsNotExist _); reflexivity.
    + intros ->. reflexivity.
    + intros ->. reflexivity.
    + intros ->. reflexivity.
  - intros [Hnull|Hempty].
    + rewrite Hnull. reflexivity.
    + rewrite Hempty. rewrite orb_true_r. reflexivity.
Qed.

(** *** Update *)

(** Create reads the plan and nothing else of its request. *)
Lemma Create_reads_Plan (w : World Disk) (req req' : CreateRequest.t Model)
    (resp : Response Model) :
  CreateRequest.Plan req = CreateRequest.Plan req' -> Create w req resp = Create w req' resp.
Proof.
  destruct req as [cfg plan], req' as [cfg' plan']. simpl. intros ->. reflexivity.
Qed.

(** C6.  Update is Create on the plan of the update: whatever the
    configuration of the Create request, both return the same world (disk
    and calls) and the same response (state and diagnostics). *)
Theorem Update_is_Create (w : World Disk) (req : UpdateRequest.t Model) (resp : Response Model)
    (cfg : option (tfsdk.Data Model)) :
  Update w req resp
  = Create w {| CreateRequest.Config := cfg; CreateRequest.Plan := UpdateRequest.Plan req |} resp.
Proof.
  unfold Update. apply Create_reads_Plan. reflexivity.
Qed.

(** The calls of Create: the encoder, the directory of [file], the write
    of [file]. *)
Lemma Create_calls (w : World Disk) (req : CreateRequest.t Model) (resp : Response Model) :
  let filePath := types.ValueString (File (tfsdk.target (CreateRequest.Plan req))) in
  forall c, In c (calls (fst (Create w req resp))) ->
    In c (calls w) \/
    (exists content level size, c = Call_qrcode_Encode content level size) \/
    c = Call_os_MkdirAll (os.Dir filePath) os.ModePerm \/
    (exists data, c = Call_os_WriteFile filePath data 0x1a4).
Proof.
  destruct req as [cfg [plan diags]]. simpl. intros c. run_Create.
  destruct (diag.HasError _); simpl; [tauto|].
  destruct (negb (types.IsNull (Size plan))); simpl.
  1: destruct ((int (types.ValueInt64 (Size plan)) <? minSize)
               || (int (types.ValueInt64 (Size plan)) >? maxSize)); simpl; [tauto|].
  all: repeat step; rewrite ?in_app_iff; simpl; intuition eauto.
Qed.

(** The disk after Create differs from the disk before at the file that
    [file] names only. *)
Lemma Create_frame (laws : os.Laws sys)
    (w : World Disk) (req : CreateRequest.t Model) (resp : Response Model) (other : string) :
  let file := File (tfsdk.target (CreateRequest.Plan req)) in
  os.resolve (disk_at_write w file) other
    <> os.resolve (disk_at_write w file) (types.ValueString file) ->
  os.contents (disk (fst (Create w req resp))) other = os.contents (disk w) other.
Proof.
  destruct req as [cfg [plan diags]]. unfold disk_at_write. simpl. intros Hne. run_Create.
  destruct (diag.HasError _); simpl; [reflexivity|].
  destruct (negb (types.IsNull (Size plan))); simpl.
  1: destruct ((int (types.ValueInt64 (Size plan)) <? minSize)
               || (int (types.ValueInt64 (Size plan)) >? maxSize)); simpl; [reflexivity|].
  all: destruct (qrcode.Encode _ _ _) as [png|err]; simpl; [|reflexivity].
  all: pose proof (os.MkdirAll_frame (os.Dir (types.ValueString (File plan))) os.ModePerm
                     (disk w) other) as Hdir.
  all: destruct (os.MkdirAll _ _ _) as [d1 [err|]]; simpl in *; [exact Hdir|].
  all: pose proof (os.WriteFile_frame (types.ValueString (File plan)) png 0x1a4 d1 other Hne)
         as Hwr.
  all: destruct (os.WriteFile _ _ _ _) as [d2 [err|]]; simpl in *; congruence.
Qed.

(** C9, amended.  Update and the file of the prior state.  Update gives the
    same result whatever the prior state and the configuration of its
    request; every call it makes is a call to the encoder, the creation of
    the directory of the planned [file], or a write of the planned [file] (no
    removal, no other write); and when the [file] of the prior state and the
    planned one name different files on the disk on which the write is made
    (they are not two spellings of one file, nor two links to it), what the
    disk holds at the old path is what it held before. *)
Theorem Update_leaves_old_file (laws : os.Laws sys)
    (w : World Disk) (req : UpdateRequest.t Model) (resp : Response Model) :
  let planned := File (tfsdk.target (UpdateRequest.Plan req)) in
  let old := types.ValueString (File (tfsdk.target (UpdateRequest.State req))) in
  let new := types.ValueString planned in
  let r := Update w req resp in
  (forall (prior : tfsdk.Data Model) (cfg : option (tfsdk.Data Model)),
     Update w {| UpdateRequest.Config := cfg;
                 UpdateRequest.Plan := UpdateRequest.Plan req;
                 UpdateRequest.State := prior |} resp = r) /\
  (forall c, In c (calls (fst r)) ->
     In c (calls w) \/
     (exists content level size, c = Call_qrcode_Encode content level size) \/
     c = Call_os_MkdirAll (os.Dir new) os.ModePerm \/
     (exists data, c = Call_os_WriteFile new data 0x1a4)) /\
  (os.resolve (disk_at_write w planned) old <> os.resolve (disk_at_write w planned) new ->
   os.contents (disk (fst r)) old = os.contents (disk w) old).
Proof.
  intros planned old new r. subst r. unfold Update. split; [|split].
  - reflexivity.
  - intros c Hc. apply (Create_calls w _ resp c Hc).
  - intros Hne. apply Create_frame; [exact laws|exact Hne].
Qed.

(** *** Delete *)

(** Delete of a state whose [file] is null or empty returns before it
    reaches RemoveResource: the response keeps its state. *)
Lemma Delete_unset_path (w : World Disk) (req : DeleteRequest.t Model) (resp : Response Model) :
  let state := tfsdk.target (DeleteRequest.State req) in
  let resp0 := Diagnostics_Append resp (tfsdk.diags (DeleteRequest.State req)) in
  diag.HasError (Diagnostics resp0) = false ->
  types.IsNull (File state) = true \/ types.ValueString (File state) = "" ->
  Delete w req resp = (w, resp0).
Proof.
  destruct req as [[state diags]]. simpl. intros Hok Hunset.
  unfold Delete. simpl. rewrite Hok.
  destruct Hunset as [-> | ->]; [reflexivity|]. rewrite orb_true_r. reflexivity.
Qed.

(** Delete of a state whose [file] is set: the three outcomes, by what
    stat and remove answer. *)
Lemma Delete_set_path (w : World Disk) (req : DeleteRequest.t Model) (resp : Response Model) :
  let state := tfsdk.target (DeleteRequest.State req) in
  let resp0 := Diagnostics_Append resp (tfsdk.diags (DeleteRequest.State req)) in
  let filePath := types.ValueString (File state) in
  let r := Delete w req resp in
  diag.HasError (Diagnostics resp0) = false ->
  types.IsNull (File state) = false -> filePath <> "" ->
  match os.Stat filePath (disk w) with
  | Some _ =>
      r = (record (Call_os_Stat filePath) w,
           {| State := None; Diagnostics := Diagnostics resp0 |})
  | None =>
      match os.Remove filePath (disk w) with
      | (d, None) =>
          r = ({| disk := d; calls := calls w ++ [Call_os_Stat filePath; Call_os_Remove filePath] |},
               {| State := None; Diagnostics := Diagnostics resp0 |})
      | (d, Some err) =>
          r = ({| disk := d; calls := calls w ++ [Call_os_Stat filePath; Call_os_Remove filePath] |},
               {| State := State resp;
                  Diagnostics := Diagnostics resp0 ++
                    [diag.NewErrorDiagnostic "Failed to Delete QR Code" (Error err)] |})
      end
  end.
Proof.
  destruct req as [[state diags]]. simpl. intros Hok Hnull Hne.
  unfold Delete, os_Stat, os_Remove. simpl. rewrite Hok, Hnull. simpl.
  destruct (String.eqb_spec (types.ValueString (File state)) "") as [E|_]; [contradiction|].
  destruct (os.Stat _ _) as [e|]; [reflexivity|].
  destruct (os.Remove _ _) as [d [err|]]; simpl; rewrite <- ?app_assoc; simpl.
  - unfold Diagnostics_AddError. simpl. rewrite AddError_fresh by exact Hok. reflexivity.
  - reflexivity.
Qed.

(** C7, amended.  Delete of a state that decodes without error and whose
    [file] is set.  The file is removed if the stat finds it: when the stat
    succeeds, the removal is called, and if it succeeds the file is gone.
    When the stat fails, because the file is missing or for any other
    reason, nothing is removed and that is not an error.  Every outcome
    without an error removes the resource from state.  A diagnostic is added
    only when the removal itself fails, and then the resource stays in
    state. *)
Theorem Delete_removes_found_file (laws : os.Laws sys)
    (w : World Disk) (req : DeleteRequest.t Model) (resp : Response Model) :
  let state := tfsdk.target (DeleteRequest.State req) in
  let resp0 := Diagnostics_Append resp (tfsdk.diags (DeleteRequest.State req)) in
  let filePath := types.ValueString (File state) in
  let r := Delete w req resp in
  diag.HasError (Diagnostics resp0) = false ->
  types.IsNull (File state) = false -> filePath <> "" ->
  (os.Stat filePath (disk w) = None ->
   In (Call_os_Remove filePath) (calls (fst r)) /\
   (snd (os.Remove filePath (disk w)) = None ->
    os.contents (disk (fst r)) filePath = None /\
    snd r = {| State := None; Diagnostics := Diagnostics resp0 |})) /\
  (forall err, os.Stat filePath (disk w) = Some err ->
   disk (fst r) = disk w /\ snd r = {| State := None; Diagnostics := Diagnostics resp0 |}) /\
  (diag.HasError (Diagnostics (snd r)) = false -> State (snd r) = None) /\
  (Diagnostics (snd r) <> Diagnostics resp0 ->
   State (snd r) = State resp /\
   os.Stat filePath (disk w) = None /\
   exists err,
     snd (os.Remove filePath (disk w)) = Some err /\
     Diagnostics (snd r) = Diagnostics resp0 ++
       [diag.NewErrorDiagnostic "Failed to Delete QR Code" (Error err)]).
Proof.
  intros state resp0 filePath r Hok Hnull Hne.
  pose proof (Delete_set_path w req resp Hok Hnull Hne) as H.
  fold state resp0 filePath r in H.
  destruct (os.Stat filePath (disk w)) as [e|] eqn:Hstat.
  - rewrite H. simpl. split; [discriminate|]. split; [auto|]. split; [auto|].
    intros Hd. now contradiction Hd.
  - destruct (os.Remove filePath (disk w)) as [d [err|]] eqn:Hrm; rewrite H; simpl.
    + split.
      { intros _. split; [|discriminate].
        apply in_or_app. right. right. now left. }
      split; [discriminate|]. split.
      * rewrite AddError_fresh_HasError by reflexivity. discriminate.
      * intros _. split; [reflexivity|]. split; [reflexivity|].
        exists err. split; reflexivity.
    + destruct (os.Remove_gone filePath (disk w) d Hrm) as [Hgone _].
      split.
      { intros _. split; [apply in_or_app; right; right; now left|]. auto. }
      split; [discriminate|]. split; [auto|].
      intros Hd. now contradiction Hd.
Qed.

(** C10.  Delete of a state that decodes without error.  When the stat of
    [file] fails, whatever the error, Delete makes no call to remove, adds no
    diagnostic and removes the resource from state.  And when Delete adds a
    diagnostic, the stat had succeeded and the removal itself had failed:
    the diagnostic is "Failed to Delete QR Code" with the error of the
    removal. *)
Theorem Delete_stat_failure (w : World Disk) (req : DeleteRequest.t Model)
    (resp : Response Model) :
  let state := tfsdk.target (DeleteRequest.State req) in
  let resp0 := Diagnostics_Append resp (tfsdk.diags (DeleteRequest.State req)) in
  let filePath := types.ValueString (File state) in
  let r := Delete w req resp in
  diag.HasError (Diagnostics resp0) = false ->
  (types.IsNull (File state) = false -> filePath <> "" ->
   forall err, os.Stat filePath (disk w) = Some err ->
     r = (record (Call_os_Stat filePath) w,
          {| State := None; Diagnostics := Diagnostics resp0 |})) /\
  (Diagnostics (snd r) <> Diagnostics resp0 ->
   os.Stat filePath (disk w) = None /\
   exists err,
     snd (os.Remove filePath (disk w)) = Some err /\
     snd r = {| State := State resp;
                Diagnostics := Diagnostics resp0 ++
                  [diag.NewErrorDiagnostic "Failed to Delete QR Code" (Error err)] |}).
Proof.
  intros state resp0 filePath r Hok. split.
  - intros Hnull Hne err Hstat.
    pose proof (Delete_set_path w req resp Hok Hnull Hne) as H.
    fold state filePath in H. rewrite Hstat in H. exact H.
  - intros Hdiag.
    destruct (types.IsNull (File state)) eqn:Hnull.
    { exfalso. apply Hdiag. subst r.
      rewrite (Delete_unset_path w req resp Hok (or_introl Hnull)). reflexivity. }
    destruct (String.eqb_spec filePath "") as [Hempty|Hne].
    { exfalso. apply Hdiag. subst r.
      rewrite (Delete_unset_path w req resp Hok (or_intror Hempty)). reflexivity. }
    pose proof (Delete_set_path w req resp Hok Hnull Hne) as H.
    fold state filePath r in H.
    destruct (os.Stat filePath (disk w)) as [e|].
    { exfalso. apply Hdiag. rewrite H. reflexivity. }
    split; [reflexivity|].
    destruct (os.Remove filePath (disk w)) as [d [err|]].
    + exists err. split; [reflexivity|]. rewrite H. reflexivity.
    + exfalso. apply Hdiag. rewrite H. reflexivity.
Qed.

End Resource.

(** ** The checksum of the data source *)

Section DataSourceChecksum.
Context {Disk : Type} {sys : os.System Disk} {lib : qrcode.Lib}.
Variable U : string -> string.

Import datasource.
Import QRCodeDataSource.

(** Read, outcome by outcome, for a configuration that decodes without
    error. *)
Lemma Read_outcome (w : World Disk) (req : ReadRequest.t Model) (resp : ReadResponse Model) :
  let data := tfsdk.target (ReadRequest.Config req) in
  let resp0 := Diagnostics_Append resp (tfsdk.diags (ReadRequest.Config req)) in
  diag.HasError (Diagnostics resp0) = false ->
  Read U w req resp =
    match level_of_tag (strings.ToUpper U (types.ValueString (ErrorCorrection data))) with
    | None => (w, Diagnostics_AddError resp0 "Invalid Error Correction Level" level_detail)
    | Some level =>
        let w' := record (Call_qrcode_New (selected_data data) level) w in
        match qrcode.New (selected_data data) level with
        | Err err =>
            (w', Diagnostics_AddError resp0 "QR Code Generation Failed"
                   ("Could not generate QR code: " +:+ Error err))
        | Ok qr =>
            let qr' :=
              if types.ValueBool (DisableBorder data) then qrcode.set_DisableBorder qr true
              else qr in
            let asciiQR := qrcode.ToSmallString qr' (types.ValueBool (Invert data)) in
            (w', {| State :=
                      Some {| Text := Text data;
                              SensitiveText := SensitiveText data;
                              ErrorCorrection := ErrorCorrection data;
                              DisableBorder := DisableBorder data;
                              Invert := Invert data;
                              ASCII := types.StringValue asciiQR;
                              ASCIISHA256 := types.StringValue (computeSHA256 asciiQR) |};
                    Diagnostics := Diagnostics resp0 |})
        end
    end.
Proof.
  destruct req as [[data diags]]. simpl. intros Hok.
  unfold Read, qrcode_New, level_of_tag, selected_data. simpl. rewrite Hok.
  destruct (String.eqb _ "L"); [|destruct (String.eqb _ "M" || String.eqb _ "");
    [|destruct (String.eqb _ "Q"); [|destruct (String.eqb _ "H")]]]; simpl;
    try reflexivity.
  all: destruct (types.IsNull (Text data)); simpl; destruct (qrcode.New _ _); reflexivity.
Qed.

Lemma Read_ok_decoded (w : World Disk) (req : ReadRequest.t Model) (resp : ReadResponse Model) :
  diag.HasError (Diagnostics (snd (Read U w req resp))) = false ->
  diag.HasError (Diagnostics (Diagnostics_Append resp (tfsdk.diags (ReadRequest.Config req))))
    = false.
Proof.
  destruct req as [[data diags]]. unfold Read. simpl.
  destruct (diag.HasError (diag.Append (Diagnostics resp) diags)) eqn:Hok; simpl;
    [|reflexivity].
  intros Hfinal. rewrite <- Hfinal. symmetry. exact Hok.
Qed.

(** C4.  A Read that ends without an error diagnostic has set the state,
    with [ascii] known, the grid that the encoder rendered, and
    [ascii_sha256] known, the hex SHA-256 digest of the bytes of that same
    string: 64 characters among 0-9 and a-f. *)
Theorem Read_sets_ascii_and_checksum (w : World Disk) (req : ReadRequest.t Model)
    (resp : ReadResponse Model) :
  let r := Read U w req resp in
  diag.HasError (Diagnostics (snd r)) = false ->
  exists (m : Model) (asciiQR : string),
    State (snd r) = Some m /\
    ASCII m = types.Known asciiQR /\
    ASCIISHA256 m
      = types.Known (hex.EncodeToString (sha256.Sum256 (bytes_of_string asciiQR))) /\
    is_hex_digest (hex.EncodeToString (sha256.Sum256 (bytes_of_string asciiQR))).
Proof.
  intros r Hfinal. subst r.
  pose proof (Read_ok_decoded w req resp Hfinal) as Hok.
  revert Hfinal. rewrite (Read_outcome w req resp Hok).
  destruct (level_of_tag _) as [level|]; simpl.
  2: { unfold Diagnostics_AddError. simpl. now rewrite HasError_AddError. }
  destruct (qrcode.New _ level) as [qr|err]; simpl.
  2: { now rewrite HasError_AddError. }
  intros _. eexists. eexists. split; [reflexivity|]. simpl.
  split; [reflexivity|]. split; [reflexivity|]. apply hex_Sum256_is_digest.
Qed.

End DataSourceChecksum.

(** ** The selection of the text *)

Section TextSelection.
Context {Disk : Type} {sys : os.System Disk} {lib : qrcode.Lib}.
Variable U : string -> string.

Lemma resource_validates :
  validates_exactly_one qrcodeResource.Schema qrcodeResource.attributes
    qrcodeResource.Text qrcodeResource.SensitiveText.
Proof.
  intros [text sens size file sha]. unfold exactly_one. simpl.
  destruct text, sens; simpl; intros; try discriminate; split; intros; try reflexivity;
    discriminate.
Qed.

Lemma data_validates :
  validates_exactly_one QRCodeDataSource.Schema QRCodeDataSource.attributes
    QRCodeDataSource.Text QRCodeDataSource.SensitiveText.
Proof.
  intros [text sens ec db inv ascii sha]. unfold exactly_one. simpl.
  destruct text, sens; simpl; intros; try discriminate; split; intros; try reflexivity;
    discriminate.
Qed.

Lemma data_ascii_validates :
  validates_exactly_one QRCodeDataSourceAscii.Schema QRCodeDataSourceAscii.attributes
    QRCodeDataSourceAscii.Text QRCodeDataSourceAscii.SensitiveText.
Proof.
  intros [text sens ec db inv ascii]. unfold exactly_one. simpl.
  destruct text, sens; simpl; intros; try discriminate; split; intros; try reflexivity;
    discriminate.
Qed.

Lemma validated_refuses {W R : Type} (s : schema.Schema)
    (report : R -> diag.Diagnostics -> R) (handler : W -> R -> W * R) :
  refused_before_handler s report handler.
Proof.
  intros config w resp Herr. unfold schema.validated. rewrite Herr. reflexivity.
Qed.

(** Create on two plans with the same selected text, [size] and [file]. *)
Lemma Create_by_selected (w : World Disk) (plan1 plan2 : qrcodeResource.Model)
    (diags : diag.Diagnostics) (cfg1 cfg2 : option (tfsdk.Data qrcodeResource.Model))
    (resp : resource.Response qrcodeResource.Model) :
  selected plan1 = selected plan2 ->
  qrcodeResource.Size plan1 = qrcodeResource.Size plan2 ->
  qrcodeResource.File plan1 = qrcodeResource.File plan2 ->
  let r1 := qrcodeResource.Create w
              {| resource.CreateRequest.Config := cfg1;
                 resource.CreateRequest.Plan := {| tfsdk.target := plan1; tfsdk.diags := diags |} |}
              resp in
  let r2 := qrcodeResource.Create w
              {| resource.CreateRequest.Config := cfg2;
                 resource.CreateRequest.Plan := {| tfsdk.target := plan2; tfsdk.diags := diags |} |}
              resp in
  fst r1 = fst r2 /\ resource_outputs (snd r1) = resource_outputs (snd r2).
Proof.
  intros Hsel Hsize Hfile.
  unfold qrcodeResource.Create, qrcode_Encode, os_MkdirAll, os_WriteFile, resource_outputs.
  simpl.
  assert (Hq : forall p,
            (if negb (types.IsNull (qrcodeResource.Text p))
             then types.ValueString (qrcodeResource.Text p)
             else types.ValueString (qrcodeResource.SensitiveText p)) = selected p)
    by (intros p; unfold selected; destruct (types.IsNull (qrcodeResource.Text p));
        reflexivity).
  rewrite !Hq, Hsel, Hsize, Hfile.
  destruct (diag.HasError _); simpl; [split; reflexivity|].
  destruct (negb (types.IsNull (qrcodeResource.Size plan2))); simpl.
  1: destruct ((int (types.ValueInt64 (qrcodeResource.Size plan2)) <? qrcodeResource.minSize)
               || (int (types.ValueInt64 (qrcodeResource.Size plan2)) >? qrcodeResource.maxSize));
       simpl; [split; reflexivity|].
  all: destruct (qrcode.Encode _ _ _); simpl; [|split; reflexivity].
  all: destruct (os.MkdirAll _ _ _) as [? [?|]]; simpl; [split; reflexivity|].
  all: destruct (os.WriteFile _ _ _ _) as [? [?|]]; simpl; split; reflexivity.
Qed.

(** Read on two configurations with the same selected text and the same
    other inputs. *)
Lemma Read_by_selected (w : World Disk) (data1 data2 : QRCodeDataSource.Model)
    (diags : diag.Diagnostics) (resp : datasource.ReadResponse QRCodeDataSource.Model) :
  selected_data data1 = selected_data data2 ->
  QRCodeDataSource.ErrorCorrection data1 = QRCodeDataSource.ErrorCorrection data2 ->
  QRCodeDataSource.DisableBorder data1 = QRCodeDataSource.DisableBorder data2 ->
  QRCodeDataSource.Invert data1 = QRCodeDataSource.Invert data2 ->
  let r1 := QRCodeDataSource.Read U w
              {| datasource.ReadRequest.Config := {| tfsdk.target := data1; tfsdk.diags := diags |} |}
              resp in
  let r2 := QRCodeDataSource.Read U w
              {| datasource.ReadRequest.Config := {| tfsdk.target := data2; tfsdk.diags := diags |} |}
              resp in
  fst r1 = fst r2 /\ data_outputs (snd r1) = data_outputs (snd r2).
Proof.
  intros Hsel Hec Hdb Hinv. simpl.
  destruct (diag.HasError (diag.Append (datasource.Diagnostics resp) diags)) eqn:Hok.
  - unfold QRCodeDataSource.Read. simpl. rewrite Hok. split; reflexivity.
  - rewrite (Read_outcome U w
               {| datasource.ReadRequest.Config :=
                    {| tfsdk.target := data1; tfsdk.diags := diags |} |} resp Hok).
    rewrite (Read_outcome U w
               {| datasource.ReadRequest.Config :=
                    {| tfsdk.target := data2; tfsdk.diags := diags |} |} resp Hok).
    simpl. rewrite Hsel, Hec, Hdb, Hinv.
    destruct (level_of_tag _); simpl; [|split; reflexivity].
    destruct (qrcode.New _ _); simpl; split; reflexivity.
Qed.

End TextSelection.

(** C8.  The selection of the text, for the resource and the data source.
    At schema level, the validators that each schema declares accept a
    configuration (with [text] and [sensitive_text] known or null) exactly
    when one of the two is supplied; a handler called through validation is
    not run when validation reports an error: the world and the state stay
    as they were.  In the handlers, [text] is used when it is not null and
    [sensitive_text] otherwise, and nothing else depends on the two
    attributes: two requests with the same selected text and the same other
    inputs give the same world (the same calls, the same disk), the same
    diagnostics and the same computed attributes. *)
Theorem text_selection :
  forall (Disk : Type) (sys : os.System Disk) (lib : qrcode.Lib) (U : string -> string),
    (validates_exactly_one qrcodeResource.Schema qrcodeResource.attributes
       qrcodeResource.Text qrcodeResource.SensitiveText /\
     validates_exactly_one QRCodeDataSource.Schema QRCodeDataSource.attributes
       QRCodeDataSource.Text QRCodeDataSource.SensitiveText /\
     validates_exactly_one QRCodeDataSourceAscii.Schema QRCodeDataSourceAscii.attributes
       QRCodeDataSourceAscii.Text QRCodeDataSourceAscii.SensitiveText) /\
    ((forall req : resource.CreateRequest.t qrcodeResource.Model,
        refused_before_handler qrcodeResource.Schema resource.Diagnostics_Append
          (fun (w : World Disk) resp => qrcodeResource.Create w req resp)) /\
     (forall req : datasource.ReadRequest.t QRCodeDataSource.Model,
        refused_before_handler QRCodeDataSource.Schema datasource.Diagnostics_Append
          (fun (w : World Disk) resp => QRCodeDataSource.Read U w req resp))) /\
    (forall (w : World Disk) (plan1 plan2 : qrcodeResource.Model) (diags : diag.Diagnostics)
            (cfg1 cfg2 : option (tfsdk.Data qrcodeResource.Model))
            (resp : resource.Response qrcodeResource.Model),
       selected plan1 = selected plan2 ->
       qrcodeResource.Size plan1 = qrcodeResource.Size plan2 ->
       qrcodeResource.File plan1 = qrcodeResource.File plan2 ->
       let r1 := qrcodeResource.Create w
                   {| resource.CreateRequest.Config := cfg1;
                      resource.CreateRequest.Plan :=
                        {| tfsdk.target := plan1; tfsdk.diags := diags |} |} resp in
       let r2 := qrcodeResource.Create w
                   {| resource.CreateRequest.Config := cfg2;
                      resource.CreateRequest.Plan :=
                        {| tfsdk.target := plan2; tfsdk.diags := diags |} |} resp in
       fst r1 = fst r2 /\ resource_outputs (snd r1) = resource_outputs (snd r2)) /\
    (forall (w : World Disk) (data1 data2 : QRCodeDataSource.Model) (diags : diag.Diagnostics)
            (resp : datasource.ReadResponse QRCodeDataSource.Model),
       selected_data data1 = selected_data data2 ->
       QRCodeDataSource.ErrorCorrection data1 = QRCodeDataSource.ErrorCorrection data2 ->
       QRCodeDataSource.DisableBorder data1 = QRCodeDataSource.DisableBorder data2 ->
       QRCodeDataSource.Invert data1 = QRCodeDataSource.Invert data2 ->
       let r1 := QRCodeDataSource.Read U w
                   {| datasource.ReadRequest.Config :=
                        {| tfsdk.target := data1; tfsdk.diags := diags |} |} resp in
       let r2 := QRCodeDataSource.Read U w
                   {| datasource.ReadRequest.Config :=
                        {| tfsdk.target := data2; tfsdk.diags := diags |} |} resp in
       fst r1 = fst r2 /\ data_outputs (snd r1) = data_outputs (snd r2)).
Proof.
  intros Disk sys lib U. split; [|split; [|split]].
  - split; [|split].
    + apply resource_validates.
    + apply data_validates.
    + apply data_ascii_validates.
  - split; intros req; apply validated_refuses.
  - intros w plan1 plan2 diags cfg1 cfg2 resp.
    apply (Create_by_selected w plan1 plan2 diags cfg1 cfg2 resp).
  - intros w data1 data2 diags resp.
    apply (Read_by_selected U w data1 data2 diags resp).
Qed.

(** ** The in-memory file system keeps the laws *)

(** A removal does not put a path below a regular file. *)
Lemma memfs_under_file_delete (key : string) (d : memfs.Disk) :
  memfs.under_file key d = false ->
  memfs.under_file key
    {| memfs.nodes := delete key (memfs.nodes d); memfs.denied := memfs.denied d |} = false.
Proof.
  unfold memfs.under_file, memfs.has_directory. simpl. intros H.
  destruct (decide (key = memfs.Dir key)) as [E|E].
  - rewrite <- E, lookup_delete_eq. apply andb_false_r.
  - rewrite lookup_delete_ne by exact E. exact H.
Qed.

(** After a write the directory above the file is still there. *)
Lemma memfs_has_directory_insert (key : string) (data : list byte) (d : memfs.Disk) :
  memfs.nodes d !! key <> Some memfs.Directory ->
  memfs.has_directory (memfs.Dir key) d = true ->
  memfs.has_directory (memfs.Dir key)
    {| memfs.nodes := <[key := memfs.File data]> (memfs.nodes d);
       memfs.denied := memfs.denied d |} = true.
Proof.
  unfold memfs.has_directory. simpl. intros Hkey H.
  destruct (String.eqb (memfs.Dir key) "." || String.eqb (memfs.Dir key) "/");
    [reflexivity|]. simpl in *.
  destruct (decide (key = memfs.Dir key)) as [E|E].
  - rewrite <- E in H. destruct (memfs.nodes d !! key) as [[?|]|]; try discriminate H.
    now contradiction Hkey.
  - rewrite lookup_insert_ne by exact E. exact H.
Qed.

#[global] Instance memfs_laws : os.Laws memfs.system.
Proof.
  split.
  - (* WriteFile_contents *)
    intros name data perm d d'. simpl. unfold memfs.WriteFile, memfs.contents.
    destruct (String.eqb name ""); [discriminate|].
    destruct (memfs.is_denied _ d); [discriminate|].
    destruct (memfs.nodes d !! memfs.clean name) as [[?|]|]; try discriminate;
      (destruct (memfs.has_directory _ d);
       [|destruct (memfs.under_file _ d); discriminate]);
      intros [= <-]; simpl; now rewrite lookup_insert_eq.
  - (* WriteFile_frame *)
    intros name data perm d other Hne. simpl in *. unfold memfs.WriteFile, memfs.contents.
    destruct (String.eqb name ""); [reflexivity|].
    destruct (memfs.is_denied _ d); [reflexivity|].
    destruct (memfs.nodes d !! memfs.clean name) as [[?|]|]; try reflexivity;
      (destruct (memfs.has_directory _ d);
       [|destruct (memfs.under_file _ d); reflexivity]);
      simpl; rewrite lookup_insert_ne; congruence.
  - (* MkdirAll_frame *)
    intros path perm d other. simpl. unfold memfs.MkdirAll, memfs.contents.
    destruct (memfs.is_denied _ d); [reflexivity|].
    destruct (memfs.nodes d !! memfs.clean path) as [[?|]|] eqn:Hp; try reflexivity.
    destruct (String.eqb _ "." || String.eqb _ "/"); [reflexivity|]. simpl.
    destruct (decide (memfs.clean path = memfs.clean other)) as [E|Hne].
    + now rewrite <- E, lookup_insert_eq, Hp.
    + now rewrite lookup_insert_ne.
  - (* Remove_gone *)
    intros name d d'. simpl. unfold memfs.Remove, memfs.contents, memfs.Stat.
    destruct (memfs.is_denied (memfs.clean name) d) eqn:Hden; [discriminate|].
    destruct (memfs.under_file (memfs.clean name) d) eqn:Hunder; [discriminate|].
    destruct (memfs.nodes d !! memfs.clean name); [|discriminate].
    intros [= <-]. split.
    + simpl. now rewrite lookup_delete_eq.
    + destruct (String.eqb name ""); [reflexivity|].
      change (memfs.is_denied (memfs.clean name)
                {| memfs.nodes := delete (memfs.clean name) (memfs.nodes d);
                   memfs.denied := memfs.denied d |})
        with (memfs.is_denied (memfs.clean name) d).
      rewrite Hden, (memfs_under_file_delete _ d Hunder). simpl.
      now rewrite lookup_delete_eq.
Qed.

(** ** The theorems on concrete requests *)

(** Sizes 99 and 2001 are refused, 100 and 2000 are encoded. *)
Example size_boundaries :
  let outcome v :=
    snd (qrcodeResource.Create sample.world (sample.create (types.Known v) "out/q.png")
           sample.no_state) in
  resource.Diagnostics (outcome 99) = [invalid_size] /\
  resource.Diagnostics (outcome 2001) = [invalid_size] /\
  resource.State (outcome 99) = None /\
  resource.State (outcome 2001) = None /\
  resource.Diagnostics (outcome 100) = [] /\
  resource.Diagnostics (outcome 2000) = [] /\
  option_map qrcodeResource.Size (resource.State (outcome 100)) = Some (types.Known 100) /\
  option_map qrcodeResource.Size (resource.State (outcome 2000)) = Some (types.Known 2000).
Proof. vm_compute. repeat split; reflexivity. Qed.

Lemma Create_size_bounds_witness :
  qrcodeResource.Create sample.world (sample.create (types.Known 99) "out/q.png") sample.no_state
  = (sample.world, {| resource.State := None; resource.Diagnostics := [invalid_size] |}).
Proof.
  destruct (Create_size_bounds sample.world (sample.create (types.Known 99) "out/q.png")
              sample.no_state eq_refl) as [_ H].
  assert (Hint : is_int64 99) by (unfold is_int64; lia).
  destruct (H 99 eq_refl Hint) as (_ & Hout & _).
  apply Hout. left. lia.
Defined.

Lemma Create_success_witness :
  exists pngData : list byte,
    qrcode.Encode "qrcode" qrcode.Medium 256 = Ok pngData /\
    calls sample.created =
      [ Call_qrcode_Encode "qrcode" qrcode.Medium 256;
        Call_os_MkdirAll "out" os.ModePerm;
        Call_os_WriteFile "out/q.png" pngData 0x1a4 ] /\
    os.contents (disk sample.created) "out/q.png" = Some pngData /\
    resource.State
      (snd (qrcodeResource.Create sample.world (sample.create types.Null "out/q.png")
              sample.no_state))
    = Some {| qrcodeResource.Text := types.Known "qrcode";
              qrcodeResource.SensitiveText := types.Null;
              qrcodeResource.Size := types.Null;
              qrcodeResource.File := types.Known "out/q.png";
              qrcodeResource.SHA256 :=
                types.StringValue (hex.EncodeToString (sha256.Sum256 pngData)) |} /\
    is_hex_digest (hex.EncodeToString (sha256.Sum256 pngData)).
Proof.
  exact (Create_success memfs_laws sample.world (sample.create types.Null "out/q.png")
           sample.no_state eq_refl).
Defined.

Lemma Read_sets_ascii_and_checksum_witness :
  exists (m : QRCodeDataSource.Model) (asciiQR : string),
    datasource.State
      (snd (QRCodeDataSource.Read standin.unicode_upper sample.world (sample.read "h")
              sample.no_data)) = Some m /\
    QRCodeDataSource.ASCII m = types.Known asciiQR /\
    QRCodeDataSource.ASCIISHA256 m
      = types.Known (hex.EncodeToString (sha256.Sum256 (bytes_of_string asciiQR))) /\
    is_hex_digest (hex.EncodeToString (sha256.Sum256 (bytes_of_string asciiQR))).
Proof.
  exact (Read_sets_ascii_and_checksum standin.unicode_upper sample.world (sample.read "h")
           sample.no_data eq_refl).
Defined.

(** A state whose file is missing from the disk is dropped by Read. *)
Lemma Read_missing_file_witness :
  snd (qrcodeResource.Read sample.world (sample.read_state "out/q.png")
         (sample.in_state (sample.stored types.Null "out/q.png")))
  = {| resource.State := None; resource.Diagnostics := [] |}.
Proof.
  destruct (Read_missing_file sample.world (sample.read_state "out/q.png")
              (sample.in_state (sample.stored types.Null "out/q.png")) eq_refl)
    as [Hset _].
  assert (Hne : types.ValueString (types.Known "out/q.png") <> "") by discriminate.
  destruct (Hset eq_refl Hne) as (_ & Hmissing & _).
  exact (Hmissing eq_refl).
Defined.

(** C5 as stated fails when the directory of the file has become a regular
    file.  Create stored the state with [file] "out/q.png"; since then "out"
    was replaced by a regular file.  Nothing is at "out/q.png", but the stat
    answers ENOTDIR, which is not os.IsNotExist, and Read keeps the resource
    in state. *)
Lemma Read_not_a_directory_counterexample :
  ~ (memfs.nodes (disk sample.blocked) !! "out/q.png" = None ->
     os.contents (disk sample.blocked) "out/q.png" = None ->
     resource.State
       (snd (qrcodeResource.Read sample.blocked (sample.read_state "out/q.png")
               (sample.in_state (sample.stored types.Null "out/q.png"))))
     = None).
Proof.
  intros H. specialize (H eq_refl eq_refl). discriminate H.
Qed.

Example stat_below_a_file :
  os.Stat "out/q.png" (disk sample.blocked) = Some (PathError "stat" "out/q.png" ENOTDIR) /\
  os.IsNotExist (os.Stat "out/q.png" (disk sample.blocked)) = false.
Proof. split; reflexivity. Qed.

(** The file of the prior state survives an update to another path. *)
Lemma Update_leaves_old_file_witness :
  os.contents
    (disk (fst (qrcodeResource.Update sample.created (sample.update "out/r.png")
                  (sample.in_state (sample.stored types.Null "out/q.png")))))
    "out/q.png"
  = os.contents (disk sample.created) "out/q.png".
Proof.
  destruct (Update_leaves_old_file memfs_laws sample.created (sample.update "out/r.png")
              (sample.in_state (sample.stored types.Null "out/q.png")))
    as (_ & _ & Hold).
  apply Hold. discriminate.
Defined.

Example Update_writes_new_file :
  let w := fst (qrcodeResource.Update sample.created (sample.update "out/r.png")
                  (sample.in_state (sample.stored types.Null "out/q.png"))) in
  os.contents (disk w) "out/r.png" = os.contents (disk sample.created) "out/q.png" /\
  os.Stat "out/q.png" (disk w) = None.
Proof. vm_compute. split; reflexivity. Qed.

(** C9 as stated fails for two spellings of one file.  The state has
    [file] "out/q.png"; the plan has another text and [file] "./out/q.png".
    The two strings differ, and the Update writes the new PNG over the old
    file. *)
Lemma Update_other_spelling_counterexample :
  ~ ("out/q.png" <> "./out/q.png" ->
     os.contents
       (disk (fst (qrcodeResource.Update sample.created sample.respelled
                     (sample.in_state (sample.stored types.Null "out/q.png")))))
       "out/q.png"
     = os.contents (disk sample.created) "out/q.png").
Proof.
  intros H. assert (Hne : "out/q.png" <> "./out/q.png") by discriminate.
  specialize (H Hne). vm_compute in H. discriminate H.
Qed.

(** C7 as stated fails for a file that is there and cannot be statted.  The
    file "out/q.png" is on the disk and every call on it is refused with
    EACCES: Delete ends without an error and the file is still there. *)
Lemma Delete_unstattable_file_counterexample :
  let r := qrcodeResource.Delete sample.locked (sample.delete "out/q.png")
             (sample.in_state (sample.stored types.Null "out/q.png")) in
  ~ (os.contents (disk sample.locked) "out/q.png" <> None ->
     diag.HasError (resource.Diagnostics (snd r)) = false ->
     os.contents (disk (fst r)) "out/q.png" = None).
Proof.
  intros r H.
  assert (Hthere : os.contents (disk sample.locked) "out/q.png" <> None)
    by (vm_compute; discriminate).
  specialize (H Hthere eq_refl). vm_compute in H. discriminate H.
Qed.

(** A file that is there and can be statted is removed, with the resource. *)
Lemma Delete_removes_found_file_witness :
  let r := qrcodeResource.Delete sample.created (sample.delete "out/q.png")
             (sample.in_state (sample.stored types.Null "out/q.png")) in
  os.contents (disk (fst r)) "out/q.png" = None /\
  snd r = {| resource.State := None; resource.Diagnostics := [] |}.
Proof.
  assert (Hne : types.ValueString (types.Known "out/q.png") <> "") by discriminate.
  destruct (Delete_removes_found_file memfs_laws sample.created (sample.delete "out/q.png")
              (sample.in_state (sample.stored types.Null "out/q.png")) eq_refl eq_refl Hne)
    as (Hfound & _).
  destruct (Hfound eq_refl) as [_ Hremoved].
  exact (Hremoved eq_refl).
Defined.

(** With a file that is there, Delete removes it and the resource; with a
    file that is missing, it removes the resource. *)
Example Delete_present_and_missing :
  let present := qrcodeResource.Delete sample.created (sample.delete "out/q.png")
                   (sample.in_state (sample.stored types.Null "out/q.png")) in
  let missing := qrcodeResource.Delete sample.world (sample.delete "out/q.png")
                   (sample.in_state (sample.stored types.Null "out/q.png")) in
  os.contents (disk (fst present)) "out/q.png" = None /\
  snd present = {| resource.State := None; resource.Diagnostics := [] |} /\
  snd missing = {| resource.State := None; resource.Diagnostics := [] |}.
Proof. vm_compute. repeat split; reflexivity. Qed.

(** A stat refused with EACCES: no removal, no diagnostic, the resource
    leaves the state and the file stays on the disk. *)
Lemma Delete_stat_failure_witness :
  qrcodeResource.Delete sample.locked (sample.delete "out/q.png")
    (sample.in_state (sample.stored types.Null "out/q.png"))
  = (record (Call_os_Stat "out/q.png") sample.locked,
     {| resource.State := None; resource.Diagnostics := [] |}).
Proof.
  destruct (Delete_stat_failure sample.locked (sample.delete "out/q.png")
              (sample.in_state (sample.stored types.Null "out/q.png")) eq_refl)
    as [Hstat _].
  assert (Hne : types.ValueString (types.Known "out/q.png") <> "") by discriminate.
  exact (Hstat eq_refl Hne (PathError "stat" "out/q.png" EACCES) eq_refl).
Defined.

(** The same text as [text] and as [sensitive_text]: the same file, the
    same checksum; both at once are refused before Create. *)
Lemma text_selection_witness :
  (let r1 := qrcodeResource.Create sample.world (sample.create types.Null "out/q.png")
               sample.no_state in
   let r2 := qrcodeResource.Create sample.world
               {| resource.CreateRequest.Config := None;
                  resource.CreateRequest.Plan := sample.prior (sample.sensitive_plan "out/q.png") |}
               sample.no_state in
   fst r1 = fst r2 /\ resource_outputs (snd r1) = resource_outputs (snd r2)) /\
  (diag.HasError
     (schema.Validate qrcodeResource.Schema
        (qrcodeResource.attributes (sample.plan types.Null "out/q.png"))) = false).
Proof.
  destruct (text_selection memfs.Disk _ _ standin.unicode_upper)
    as ((Hres & _ & _) & _ & Hcreate & _).
  split.
  - exact (Hcreate sample.world (sample.plan types.Null "out/q.png")
             (sample.sensitive_plan "out/q.png") [] None None sample.no_state
             eq_refl eq_refl eq_refl).
  - apply (Hres (sample.plan types.Null "out/q.png") eq_refl eq_refl). reflexivity.
Defined.

Example both_or_neither_refused :
  let both := {| qrcodeResource.Text := types.Known "a";
                 qrcodeResource.SensitiveText := types.Known "b";
                 qrcodeResource.Size := types.Null;
                 qrcodeResource.File := types.Known "out/q.png";
                 qrcodeResource.SHA256 := types.Unknown |} in
  let neither := {| qrcodeResource.Text := types.Null;
                    qrcodeResource.SensitiveText := types.Null;
                    qrcodeResource.Size := types.Null;
                    qrcodeResource.File := types.Known "out/q.png";
                    qrcodeResource.SHA256 := types.Unknown |} in
  map diag.Detail (schema.Validate qrcodeResource.Schema (qrcodeResource.attributes both))
  = ["2 attributes specified when one (and only one) of [text,sensitive_text] is required"] /\
  map diag.Detail (schema.Validate qrcodeResource.Schema (qrcodeResource.attributes neither))
  = ["No attribute specified when one (and only one) of [text,sensitive_text] is required"].
Proof. vm_compute. split; reflexivity. Qed.

(** * More of the resource *)

Section ResourceOutcomes.
Context {Disk : Type} {sys : os.System Disk} {lib : qrcode.Lib}.

Import resource.
Import qrcodeResource.

(** Create, outcome by outcome, for a plan that decodes without error. *)
Lemma Create_outcome (w : World Disk) (req : CreateRequest.t Model) (resp : Response Model) :
  let plan := tfsdk.target (CreateRequest.Plan req) in
  let resp0 := Diagnostics_Append resp (tfsdk.diags (CreateRequest.Plan req)) in
  let filePath := types.ValueString (File plan) in
  let failed summary detail :=
    {| State := State resp;
       Diagnostics := Diagnostics resp0 ++ [diag.NewErrorDiagnostic summary detail] |} in
  let encode := Call_qrcode_Encode (selected plan) qrcode.Medium (resolved_size plan) in
  let mkdir := Call_os_MkdirAll (os.Dir filePath) os.ModePerm in
  diag.HasError (Diagnostics resp0) = false ->
  Create w req resp =
    if size_refused plan then (w, failed "Invalid Size" size_detail)
    else
      match qrcode.Encode (selected plan) qrcode.Medium (resolved_size plan) with
      | Err err => (record encode w, failed "QR Code Generation Failed" (Error err))
      | Ok pngData =>
          match os.MkdirAll (os.Dir filePath) os.ModePerm (disk w) with
          | (d1, Some err) =>
              ({| disk := d1; calls := calls w ++ [encode; mkdir] |},
               failed "Failed to Create Directory" (Error err))
          | (d1, None) =>
              match os.WriteFile filePath pngData 0x1a4 d1 with
              | (d2, Some err) =>
                  ({| disk := d2;
                      calls := calls w ++ [encode; mkdir;
                                           Call_os_WriteFile filePath pngData 0x1a4] |},
                   failed "Failed to Save QR Code" (Error err))
              | (d2, None) =>
                  ({| disk := d2;
                      calls := calls w ++ [encode; mkdir;
                                           Call_os_WriteFile filePath pngData 0x1a4] |},
                   {| State :=
                        Some {| Text := Text plan;
                                SensitiveText := SensitiveText plan;
                                Size := Size plan;
                                File := File plan;
                                SHA256 := types.StringValue
                                            (hex.EncodeToString (sha256.Sum256 pngData)) |};
                      Diagnostics := Diagnostics resp0 |})
              end
          end
      end.
Proof.
  destruct req as [cfg [plan diags]]. simpl. intros Hok.
  unfold Create, qrcode_Encode, os_MkdirAll, os_WriteFile, size_refused, resolved_size,
    Diagnostics_AddError, record.
  simpl. rewrite Hok.
  assert (Hsel : (if negb (types.IsNull (Text plan)) then types.ValueString (Text plan)
                  else types.ValueString (SensitiveText plan)) = selected plan)
    by (unfold selected; destruct (types.IsNull (Text plan)); reflexivity).
  rewrite Hsel.
  destruct (types.IsNull (Size plan)); simpl.
  2: destruct ((int (types.ValueInt64 (Size plan)) <? minSize)
               || (int (types.ValueInt64 (Size plan)) >? maxSize)); simpl.
  2: now rewrite AddError_fresh by exact Hok.
  all: destruct (qrcode.Encode _ _ _) as [png|err]; simpl;
    [|now rewrite AddError_fresh by exact Hok].
  all: destruct (os.MkdirAll _ _ _) as [d1 [err|]]; simpl;
    [now rewrite AddError_fresh, <- app_assoc by exact Hok|].
  all: destruct (os.WriteFile _ _ _ _) as [d2 [err|]]; simpl;
    rewrite ?AddError_fresh by exact Hok; now rewrite <- !app_assoc.
Qed.

(** With a plan that does not decode Create returns at once. *)
Lemma Create_not_decoded (w : World Disk) (req : CreateRequest.t Model) (resp : Response Model) :
  let resp0 := Diagnostics_Append resp (tfsdk.diags (CreateRequest.Plan req)) in
  diag.HasError (Diagnostics resp0) = true -> Create w req resp = (w, resp0).
Proof.
  destruct req as [cfg [plan diags]]. simpl. intros Herr.
  unfold Create. simpl. rewrite Herr. reflexivity.
Qed.

Ltac outcome_cases :=
  match goal with
  | |- context [size_refused ?p] => destruct (size_refused p) eqn:?; simpl
  end;
  try match goal with
  | |- context [qrcode.Encode ?t ?l ?s] => destruct (qrcode.Encode t l s) eqn:?; simpl
  end;
  try match goal with
  | |- context [os.MkdirAll ?p ?m ?d] => destruct (os.MkdirAll p m d) as [? [?|]] eqn:?; simpl
  end;
  try match goal with
  | |- context [os.WriteFile ?p ?b ?m ?d] =>
      destruct (os.WriteFile p b m d) as [? [?|]] eqn:?; simpl
  end.

(** X1.  Create changes the state only when it succeeds: a response that
    holds an error diagnostic has the state it was given.  And Create
    reports at most one error of its own: after a plan that decodes without
    error, the diagnostics are those it started with, or those followed by
    one error whose summary is one of "Invalid Size", "QR Code Generation
    Failed", "Failed to Create Directory" and "Failed to Save QR Code". *)
Theorem Create_error_keeps_state (w : World Disk) (req : CreateRequest.t Model)
    (resp : Response Model) :
  let resp0 := Diagnostics_Append resp (tfsdk.diags (CreateRequest.Plan req)) in
  let r := Create w req resp in
  (diag.HasError (Diagnostics (snd r)) = true -> State (snd r) = State resp) /\
  (diag.HasError (Diagnostics resp0) = false ->
   Diagnostics (snd r) = Diagnostics resp0 \/
   exists d, Diagnostics (snd r) = Diagnostics resp0 ++ [d] /\
             diag.is_error d = true /\ In (diag.Summary d) Create_summaries).
Proof.
  intros resp0 r. subst r.
  destruct (diag.HasError (Diagnostics resp0)) eqn:Hok.
  - rewrite (Create_not_decoded w req resp Hok). simpl. split; [reflexivity|discriminate].
  - rewrite (Create_outcome w req resp Hok). fold resp0. split.
    + outcome_cases; intros Herr; try reflexivity.
      unfold resp0 in *. simpl in *. congruence.
    + intros _. outcome_cases; try (now left); right; eexists;
        (split; [reflexivity|]); split; try reflexivity; simpl; tauto.
Qed.

(** X2.  The three failures of Create after the size check, for a plan
    that decodes without error and passes the check.  When the encoder
    refuses, the error is "QR Code Generation Failed" with the message of the
    encoder, and the disk is not touched: no directory, no file.  When the
    directory cannot be made, the error is "Failed to Create Directory" and
    no write is attempted.  When the write fails, the error is "Failed to
    Save QR Code" and nothing is rolled back: the disk is the one that the
    directory creation and the failed write left. *)
Theorem Create_failures (w : World Disk) (req : CreateRequest.t Model) (resp : Response Model) :
  let plan := tfsdk.target (CreateRequest.Plan req) in
  let resp0 := Diagnostics_Append resp (tfsdk.diags (CreateRequest.Plan req)) in
  let filePath := types.ValueString (File plan) in
  let r := Create w req resp in
  let failed summary detail :=
    {| State := State resp;
       Diagnostics := Diagnostics resp0 ++ [diag.NewErrorDiagnostic summary detail] |} in
  let encode := Call_qrcode_Encode (selected plan) qrcode.Medium (resolved_size plan) in
  let mkdir := Call_os_MkdirAll (os.Dir filePath) os.ModePerm in
  diag.HasError (Diagnostics resp0) = false ->
  size_refused plan = false ->
  (forall err,
     qrcode.Encode (selected plan) qrcode.Medium (resolved_size plan) = Err err ->
     r = (record encode w, failed "QR Code Generation Failed" (Error err))) /\
  (forall pngData d1 err,
     qrcode.Encode (selected plan) qrcode.Medium (resolved_size plan) = Ok pngData ->
     os.MkdirAll (os.Dir filePath) os.ModePerm (disk w) = (d1, Some err) ->
     r = ({| disk := d1; calls := calls w ++ [encode; mkdir] |},
          failed "Failed to Create Directory" (Error err))) /\
  (forall pngData d1 d2 err,
     qrcode.Encode (selected plan) qrcode.Medium (resolved_size plan) = Ok pngData ->
     os.MkdirAll (os.Dir filePath) os.ModePerm (disk w) = (d1, None) ->
     os.WriteFile filePath pngData 0x1a4 d1 = (d2, Some err) ->
     r = ({| disk := d2;
             calls := calls w ++ [encode; mkdir; Call_os_WriteFile filePath pngData 0x1a4] |},
          failed "Failed to Save QR Code" (Error err))).
Proof.
  intros plan resp0 filePath r failed encode mkdir Hok Hsize. subst r.
  rewrite (Create_outcome w req resp Hok). fold plan resp0 filePath. rewrite Hsize.
  split; [|split].
  - intros err ->. reflexivity.
  - intros png d1 err -> ->. reflexivity.
  - intros png d1 d2 err -> -> ->. reflexivity.
Qed.

(** A Create that ends without an error: what it encoded and stored, and
    the disk it left. *)
Lemma Create_written (w : World Disk) (req : CreateRequest.t Model) (resp : Response Model) :
  let plan := tfsdk.target (CreateRequest.Plan req) in
  let filePath := types.ValueString (File plan) in
  let r := Create w req resp in
  diag.HasError (Diagnostics (snd r)) = false ->
  exists pngData d1,
    qrcode.Encode (selected plan) qrcode.Medium (resolved_size plan) = Ok pngData /\
    os.MkdirAll (os.Dir filePath) os.ModePerm (disk w) = (d1, None) /\
    os.WriteFile filePath pngData 0x1a4 d1 = (disk (fst r), None) /\
    State (snd r) =
      Some {| Text := Text plan;
              SensitiveText := SensitiveText plan;
              Size := Size plan;
              File := File plan;
              SHA256 := types.StringValue (hex.EncodeToString (sha256.Sum256 pngData)) |}.
Proof.
  intros plan filePath r Hfinal. subst r.
  pose proof (Create_ok_decoded w req resp Hfinal) as Hok.
  revert Hfinal. rewrite (Create_outcome w req resp Hok). fold plan filePath.
  outcome_cases; rewrite ?AddError_fresh_HasError by reflexivity; try discriminate.
  intros _. eexists. eexists. repeat split; eassumption.
Qed.

(** X3.  The checksum that Create stores is a function of the selected
    text and the size alone: two Creates that end without an error, from any
    worlds, to any files, with the same selected text and the same resolved
    size, store the same [sha256], the digest of the PNG of that text at
    Medium and that size. *)
Theorem Create_checksum_by_text_and_size
    (w1 w2 : World Disk) (req1 req2 : CreateRequest.t Model) (resp1 resp2 : Response Model) :
  let plan1 := tfsdk.target (CreateRequest.Plan req1) in
  let plan2 := tfsdk.target (CreateRequest.Plan req2) in
  let r1 := Create w1 req1 resp1 in
  let r2 := Create w2 req2 resp2 in
  selected plan1 = selected plan2 ->
  resolved_size plan1 = resolved_size plan2 ->
  diag.HasError (Diagnostics (snd r1)) = false ->
  diag.HasError (Diagnostics (snd r2)) = false ->
  exists pngData,
    qrcode.Encode (selected plan1) qrcode.Medium (resolved_size plan1) = Ok pngData /\
    option_map SHA256 (State (snd r1))
      = Some (types.Known (hex.EncodeToString (sha256.Sum256 pngData))) /\
    option_map SHA256 (State (snd r2))
      = Some (types.Known (hex.EncodeToString (sha256.Sum256 pngData))).
Proof.
  intros plan1 plan2 r1 r2 Hsel Hsize H1 H2.
  destruct (Create_written w1 req1 resp1 H1) as (png1 & ? & Henc1 & _ & _ & Hst1).
  destruct (Create_written w2 req2 resp2 H2) as (png2 & ? & Henc2 & _ & _ & Hst2).
  fold plan1 in Henc1, Hst1. fold plan2 in Henc2, Hst2.
  rewrite <- Hsel, <- Hsize, Henc1 in Henc2. injection Henc2 as <-.
  exists png1. split; [exact Henc1|].
  subst r1 r2. rewrite Hst1, Hst2. split; reflexivity.
Qed.

(** *** Read *)

(** Read of the resource, outcome by outcome. *)
Lemma resource_Read_outcome (w : World Disk) (req : ReadRequest.t Model) (resp : Response Model) :
  let state := tfsdk.target (ReadRequest.State req) in
  let resp0 := Diagnostics_Append resp (tfsdk.diags (ReadRequest.State req)) in
  let filePath := types.ValueString (File state) in
  Read w req resp =
    if diag.HasError (Diagnostics resp0) then (w, resp0)
    else if types.IsNull (File state) || String.eqb filePath "" then (w, resp0)
    else if os.IsNotExist (os.Stat filePath (disk w)) then
      (record (Call_os_Stat filePath) w, {| State := None; Diagnostics := Diagnostics resp0 |})
    else (record (Call_os_Stat filePath) w, resp0).
Proof.
  destruct req as [[state diags]]. simpl. unfold Read, os_Stat. simpl.
  destruct (diag.HasError _); [reflexivity|].
  destruct (types.IsNull (File state) || _); [reflexivity|].
  destruct (os.IsNotExist _); reflexivity.
Qed.

(** X4.  What Read of the resource never does: it adds no diagnostic of its
    own (a stat that fails for another reason than a missing file is not
    reported), it leaves the disk as it is, it makes at most one call, the
    stat of [file], and the state it returns is the one it was given or
    none. *)
Theorem Read_adds_nothing (w : World Disk) (req : ReadRequest.t Model) (resp : Response Model) :
  let filePath := types.ValueString (File (tfsdk.target (ReadRequest.State req))) in
  let r := Read w req resp in
  Diagnostics (snd r) = diag.Append (Diagnostics resp) (tfsdk.diags (ReadRequest.State req)) /\
  disk (fst r) = disk w /\
  (calls (fst r) = calls w \/ calls (fst r) = calls w ++ [Call_os_Stat filePath]) /\
  (State (snd r) = State resp \/ State (snd r) = None).
Proof.
  intros filePath r. subst r. rewrite resource_Read_outcome. fold filePath.
  destruct (diag.HasError _); simpl; [tauto|].
  destruct (types.IsNull _ || _); simpl; [tauto|].
  destruct (os.IsNotExist _); simpl; tauto.
Qed.

(** X5.  Read after Create or Update.  When Create, or Update, ends without
    an error and has stored the state [m], a Read of [m] on the disk it left
    keeps the resource: the state is still [m], no diagnostic is added, the
    disk is unchanged. *)
Theorem Create_then_Read (seq : SequenceLaws sys)
    (w : World Disk) (req : CreateRequest.t Model) (ureq : UpdateRequest.t Model)
    (resp : Response Model) (m : Model) :
  (let r := Create w req resp in
   diag.HasError (Diagnostics (snd r)) = false -> State (snd r) = Some m ->
   let r' := Read (fst r) (read_request m) (response_with (Some m)) in
   snd r' = response_with (Some m) /\ disk (fst r') = disk (fst r)) /\
  (let r := Update w ureq resp in
   diag.HasError (Diagnostics (snd r)) = false -> State (snd r) = Some m ->
   let r' := Read (fst r) (read_request m) (response_with (Some m)) in
   snd r' = response_with (Some m) /\ disk (fst r') = disk (fst r)).
Proof.
  assert (Hgen : forall req0 : CreateRequest.t Model,
            let r := Create w req0 resp in
            diag.HasError (Diagnostics (snd r)) = false -> State (snd r) = Some m ->
            let r' := Read (fst r) (read_request m) (response_with (Some m)) in
            snd r' = response_with (Some m) /\ disk (fst r') = disk (fst r)).
  { intros req0 r Hfinal Hm r'. subst r'.
    destruct (Create_written w req0 resp Hfinal) as (png & d1 & _ & _ & Hwr & Hst).
    fold r in Hwr, Hst. rewrite Hst in Hm. injection Hm as <-.
    rewrite resource_Read_outcome. simpl.
    destruct (types.IsNull _ || _); simpl; [split; reflexivity|].
    rewrite (WriteFile_Stat _ _ _ _ _ Hwr). simpl. split; reflexivity. }
  split.
  - apply Hgen.
  - unfold Update. apply Hgen.
Qed.

(** X6.  The checks of the acceptance test agree.  After a Create that ends
    without an error and stores [m], the file is found by the stat of the
    test, and calculateSHA256 of the file is the [sha256] of [m]: the
    checksum read back from the disk and the checksum in the state cannot
    differ. *)
Theorem checksum_of_file_is_sha256 (laws : os.Laws sys) (seq : SequenceLaws sys)
    (w : World Disk) (req : CreateRequest.t Model) (resp : Response Model) (m : Model) :
  let filePath := types.ValueString (File (tfsdk.target (CreateRequest.Plan req))) in
  let r := Create w req resp in
  diag.HasError (Diagnostics (snd r)) = false -> State (snd r) = Some m ->
  file_generated filePath (disk (fst r)) = true /\
  calculateSHA256 filePath (disk (fst r)) = Some (types.ValueString (SHA256 m)).
Proof.
  intros filePath r Hfinal Hm.
  destruct (Create_written w req resp Hfinal) as (png & d1 & _ & _ & Hwr & Hst).
  fold r filePath in Hwr, Hst. rewrite Hst in Hm. injection Hm as <-. split.
  - unfold file_generated. now rewrite (WriteFile_Stat _ _ _ _ _ Hwr).
  - unfold calculateSHA256. now rewrite (os.WriteFile_contents _ _ _ _ _ Hwr).
Qed.

(** *** Delete *)

(** Delete leaves what the disk holds at every path that names another
    file. *)
Lemma Delete_frame (seq : SequenceLaws sys)
    (w : World Disk) (req : DeleteRequest.t Model) (resp : Response Model) (other : string) :
  os.resolve (disk w) other
    <> os.resolve (disk w) (types.ValueString (File (tfsdk.target (DeleteRequest.State req)))) ->
  os.contents (disk (fst (Delete w req resp))) other = os.contents (disk w) other.
Proof.
  destruct req as [[state diags]]. simpl. intros Hne.
  unfold Delete, os_Stat, os_Remove. simpl.
  destruct (diag.HasError _); [reflexivity|].
  destruct (types.IsNull _ || _); [reflexivity|].
  destruct (os.Stat _ _); [reflexivity|]. simpl.
  pose proof (Remove_frame (types.ValueString (File state)) (disk w) other Hne) as Hfr.
  destruct (os.Remove _ _) as [d [err|]]; simpl in *; exact Hfr.
Qed.

(** X7.  What Delete never does.  Its calls are the stat and the removal of
    the [file] of the state, in this order and at most once each: it calls
    neither the encoder nor a write; and what the disk holds at a path that
    names another file than [file] (not another spelling of it, nor a link
    to it) is what it held before. *)
Theorem Delete_touches_one_path (seq : SequenceLaws sys)
    (w : World Disk) (req : DeleteRequest.t Model) (resp : Response Model) :
  let filePath := types.ValueString (File (tfsdk.target (DeleteRequest.State req))) in
  let r := Delete w req resp in
  (calls (fst r) = calls w \/
   calls (fst r) = calls w ++ [Call_os_Stat filePath] \/
   calls (fst r) = calls w ++ [Call_os_Stat filePath; Call_os_Remove filePath]) /\
  (forall other, os.resolve (disk w) other <> os.resolve (disk w) filePath ->
     os.contents (disk (fst r)) other = os.contents (disk w) other).
Proof.
  intros filePath r. split.
  - subst r filePath. destruct req as [[state diags]]. simpl.
    unfold Delete, os_Stat, os_Remove. simpl.
    destruct (diag.HasError _); [tauto|].
    destruct (types.IsNull _ || _); [tauto|].
    destruct (os.Stat _ _); [simpl; tauto|]. simpl.
    destruct (os.Remove _ _) as [d [err|]]; simpl; rewrite <- app_assoc; simpl; tauto.
  - intros other Hne. apply Delete_frame; assumption.
Qed.

(** X8.  Delete twice.  After a Delete of the state [m] that ends without
    an error, a second Delete of [m] on the disk that the first left ends
    without an error too, removes nothing (its only possible call is the
    stat) and leaves the disk as it is; when the [file] of [m] is set, it
    removes the resource from state again. *)
Theorem Delete_twice (laws : os.Laws sys)
    (w : World Disk) (m : Model) (s1 s2 : option Model) :
  let filePath := types.ValueString (File m) in
  let r1 := Delete w (delete_request m) (response_with s1) in
  let r2 := Delete (fst r1) (delete_request m) (response_with s2) in
  diag.HasError (Diagnostics (snd r1)) = false ->
  Diagnostics (snd r2) = [] /\
  disk (fst r2) = disk (fst r1) /\
  (calls (fst r2) = calls (fst r1) \/
   calls (fst r2) = calls (fst r1) ++ [Call_os_Stat filePath]) /\
  (types.IsNull (File m) = false -> filePath <> "" -> State (snd r2) = None).
Proof.
  intros filePath r1 r2 Hfinal.
  assert (Hunset : types.IsNull (File m) = true \/ filePath = "" ->
            forall (w' : World Disk) (s' : option Model),
              Delete w' (delete_request m) (response_with s') = (w', response_with s')).
  { intros Hu w' s'.
    exact (Delete_unset_path w' (delete_request m) (response_with s') eq_refl Hu). }
  destruct (types.IsNull (File m)) eqn:Hnull.
  { subst r2 r1. rewrite !Hunset by (now left).
    simpl. repeat split; try tauto; discriminate. }
  destruct (String.eqb_spec filePath "") as [Hempty|Hne].
  { subst r2 r1. rewrite !Hunset by (now right).
    simpl. repeat split; try tauto; intros _ Habs; now contradiction Habs. }
  pose proof (Delete_set_path w (delete_request m) (response_with s1) eq_refl Hnull Hne) as H1.
  pose proof (fun w' => Delete_set_path w' (delete_request m) (response_with s2)
                          eq_refl Hnull Hne) as H2.
  simpl in H1, H2. fold filePath in H1, H2. fold r1 in H1.
  assert (Hskip : forall w' : World Disk,
            (exists e, os.Stat filePath (disk w') = Some e) ->
            Delete w' (delete_request m) (response_with s2)
            = (record (Call_os_Stat filePath) w',
               {| State := None; Diagnostics := [] |})).
  { intros w' [e He]. specialize (H2 w'). rewrite He in H2. exact H2. }
  destruct (os.Stat filePath (disk w)) as [e|] eqn:Hstat.
  - subst r2. rewrite H1. simpl. rewrite Hskip by (simpl; eauto).
    simpl. repeat split; tauto.
  - destruct (os.Remove filePath (disk w)) as [d [err|]] eqn:Hrm.
    + rewrite H1 in Hfinal. simpl in Hfinal. discriminate Hfinal.
    + destruct (os.Remove_gone filePath (disk w) d Hrm) as [_ Hgone].
      subst r2. rewrite H1. simpl. rewrite Hskip.
      * simpl. repeat split; tauto.
      * simpl. destruct (os.Stat filePath d) as [e|]; [eauto|discriminate Hgone].
Qed.

(** X9.  Read after Delete.  When the file of the state [m] is there (the
    stat succeeds) and Delete of [m] ends without an error, the file is gone
    and a Read of [m] on the disk that Delete left removes the resource from
    state, without a diagnostic. *)
Theorem Delete_then_Read (laws : os.Laws sys)
    (w : World Disk) (m : Model) (s : option Model) :
  let filePath := types.ValueString (File m) in
  let r := Delete w (delete_request m) (response_with s) in
  types.IsNull (File m) = false -> filePath <> "" ->
  os.Stat filePath (disk w) = None ->
  diag.HasError (Diagnostics (snd r)) = false ->
  os.contents (disk (fst r)) filePath = None /\
  snd (Read (fst r) (read_request m) (response_with (Some m)))
  = {| State := None; Diagnostics := [] |}.
Proof.
  intros filePath r Hnull Hne Hstat Hfinal.
  pose proof (Delete_set_path w (delete_request m) (response_with s) eq_refl Hnull Hne) as H.
  simpl in H. fold filePath r in H. rewrite Hstat in H.
  destruct (os.Remove filePath (disk w)) as [d [err|]] eqn:Hrm.
  - rewrite H in Hfinal. simpl in Hfinal. discriminate Hfinal.
  - destruct (os.Remove_gone filePath (disk w) d Hrm) as [Hnone Hgone].
    rewrite H. simpl. split; [exact Hnone|].
    rewrite resource_Read_outcome. simpl. fold filePath. rewrite Hnull. simpl.
    destruct (String.eqb_spec filePath "") as [E|_]; [contradiction|].
    rewrite Hgone. reflexivity.
Qed.

(** X10.  Delete after Create.  When Create ends without an error and
    stores [m], whose [file] is set, Delete of [m] on the disk that Create
    left finds the file and calls the removal; if it ends without an error,
    the file is gone and the resource is removed from state. *)
Theorem Create_then_Delete (laws : os.Laws sys) (seq : SequenceLaws sys)
    (w : World Disk) (req : CreateRequest.t Model) (resp : Response Model) (m : Model)
    (s : option Model) :
  let filePath := types.ValueString (File m) in
  let r := Create w req resp in
  let r' := Delete (fst r) (delete_request m) (response_with s) in
  diag.HasError (Diagnostics (snd r)) = false -> State (snd r) = Some m ->
  types.IsNull (File m) = false -> filePath <> "" ->
  calls (fst r') = calls (fst r) ++ [Call_os_Stat filePath; Call_os_Remove filePath] /\
  (diag.HasError (Diagnostics (snd r')) = false ->
   os.contents (disk (fst r')) filePath = None /\ State (snd r') = None).
Proof.
  intros filePath r r' Hfinal Hm Hnull Hne.
  destruct (Create_written w req resp Hfinal) as (png & d1 & _ & _ & Hwr & Hst).
  fold r in Hwr, Hst. rewrite Hst in Hm. injection Hm as Hm.
  assert (Hfile : File (tfsdk.target (CreateRequest.Plan req)) = File m)
    by (rewrite <- Hm; reflexivity).
  rewrite Hfile in Hwr. fold filePath in Hwr.
  pose proof (WriteFile_Stat _ _ _ _ _ Hwr) as Hstat.
  pose proof (Delete_set_path (fst r) (delete_request m) (response_with s) eq_refl Hnull Hne)
    as H.
  simpl in H. fold filePath r' in H. rewrite Hstat in H.
  destruct (os.Remove filePath (disk (fst r))) as [d [err|]] eqn:Hrm; rewrite H; simpl.
  - split; [reflexivity|]. discriminate.
  - destruct (os.Remove_gone filePath (disk (fst r)) d Hrm) as [Hnone _].
    split; [reflexivity|]. intros _. split; [exact Hnone|reflexivity].
Qed.

(** X11.  The file that an update leaves behind.  Create writes [file] and
    ends without an error; an Update then moves the resource to a path that
    names another file, and a Delete removes the resource at a path that
    names another file than the first (on no disk are they spellings of the
    first path or links to it).  Whatever the outcomes of the Update and of
    the Delete, the first file is still on the disk, with the bytes that
    Create wrote: nothing in the provider removes it. *)
Theorem first_file_outlives_update (laws : os.Laws sys) (seq : SequenceLaws sys)
    (w : World Disk) (req : CreateRequest.t Model) (ureq : UpdateRequest.t Model)
    (dreq : DeleteRequest.t Model) (resp1 resp2 resp3 : Response Model) :
  let first := types.ValueString (File (tfsdk.target (CreateRequest.Plan req))) in
  let moved := types.ValueString (File (tfsdk.target (UpdateRequest.Plan ureq))) in
  let deleted := types.ValueString (File (tfsdk.target (DeleteRequest.State dreq))) in
  let r1 := Create w req resp1 in
  let r2 := Update (fst r1) ureq resp2 in
  let r3 := Delete (fst r2) dreq resp3 in
  diag.HasError (Diagnostics (snd r1)) = false ->
  (forall d, os.resolve d first <> os.resolve d moved) ->
  (forall d, os.resolve d first <> os.resolve d deleted) ->
  os.contents (disk (fst r3)) first = os.contents (disk (fst r1)) first /\
  exists pngData, os.contents (disk (fst r3)) first = Some pngData.
Proof.
  intros first moved deleted r1 r2 r3 Hfinal Hup Hdel.
  assert (H3 : os.contents (disk (fst r3)) first = os.contents (disk (fst r2)) first).
  { apply Delete_frame; [exact seq|]. apply Hdel. }
  assert (H2 : os.contents (disk (fst r2)) first = os.contents (disk (fst r1)) first).
  { subst r2. unfold Update. apply Create_frame; [exact laws|]. simpl. apply Hup. }
  destruct (Create_written w req resp1 Hfinal) as (png & d1 & _ & _ & Hwr & _).
  fold r1 first in Hwr.
  pose proof (os.WriteFile_contents _ _ _ _ _ Hwr) as H1.
  split; [congruence|]. exists png. congruence.
Qed.

End ResourceOutcomes.

(** * More of the data source *)

Section DataSourceOutcomes.
Context {Disk : Type} {sys : os.System Disk} {lib : qrcode.Lib}.
Variable U : string -> string.

Import datasource.
Import QRCodeDataSource.

Lemma Read_not_decoded (w : World Disk) (req : ReadRequest.t Model) (resp : ReadResponse Model) :
  let resp0 := Diagnostics_Append resp (tfsdk.diags (ReadRequest.Config req)) in
  diag.HasError (Diagnostics resp0) = true -> Read U w req resp = (w, resp0).
Proof.
  destruct req as [[data diags]]. simpl. intros Herr.
  unfold Read. simpl. rewrite Herr. reflexivity.
Qed.

(** X12.  Read of the data source and the outside world.  Read never
    touches the disk and makes at most one call, [qrcode.New] with the
    selected text.  It changes the state only when it succeeds: a response
    with an error diagnostic has the state it was given.  When the encoder
    refuses the text at the level Read called it with, the error is "QR Code
    Generation Failed", with the message of the encoder after "Could not
    generate QR code: ". *)
Theorem Read_outside_world (w : World Disk) (req : ReadRequest.t Model)
    (resp : ReadResponse Model) :
  let data := tfsdk.target (ReadRequest.Config req) in
  let resp0 := Diagnostics_Append resp (tfsdk.diags (ReadRequest.Config req)) in
  let r := Read U w req resp in
  disk (fst r) = disk w /\
  (calls (fst r) = calls w \/
   exists level, calls (fst r) = calls w ++ [Call_qrcode_New (selected_data data) level]) /\
  (diag.HasError (Diagnostics (snd r)) = true -> State (snd r) = State resp) /\
  (diag.HasError (Diagnostics resp0) = false ->
   forall level err,
     calls (fst r) = calls w ++ [Call_qrcode_New (selected_data data) level] ->
     qrcode.New (selected_data data) level = Err err ->
     snd r = {| State := State resp;
                Diagnostics := Diagnostics resp0 ++
                  [diag.NewErrorDiagnostic "QR Code Generation Failed"
                     ("Could not generate QR code: " +:+ Error err)] |}).
Proof.
  intros data resp0 r. subst r.
  destruct (diag.HasError (Diagnostics resp0)) eqn:Hok.
  - rewrite (Read_not_decoded w req resp Hok). simpl.
    repeat split; try tauto. discriminate.
  - rewrite (Read_outcome U w req resp Hok). fold data resp0.
    destruct (level_of_tag _) as [level0|] eqn:Hlevel; simpl.
    + destruct (qrcode.New (selected_data data) level0) as [qr|err0] eqn:Hnew0; simpl.
      * split; [reflexivity|]. split; [right; eexists; reflexivity|]. split.
        -- intros Herr. unfold resp0 in Hok. simpl in Hok. congruence.
        -- intros _ level err Hcalls Hnew. apply app_inv_head in Hcalls.
           injection Hcalls as <-. congruence.
      * split; [reflexivity|]. split; [right; eexists; reflexivity|]. split.
        -- reflexivity.
        -- intros _ level err Hcalls Hnew. apply app_inv_head in Hcalls.
           injection Hcalls as <-. rewrite Hnew0 in Hnew. injection Hnew as <-.
           unfold Diagnostics_AddError. simpl. now rewrite AddError_fresh by exact Hok.
    + split; [reflexivity|]. split; [left; reflexivity|]. split.
      * reflexivity.
      * intros _ level err Hcalls. exfalso.
        apply (f_equal (@length Call)) in Hcalls.
        rewrite length_app in Hcalls. simpl in Hcalls. lia.
Qed.

(** X13.  Read looks at [error_correction] through its uppercasing only
    and at the two flags through their boolean value only, for which null
    and unknown count as false: two configurations with the same texts, the
    same uppercased [error_correction] and the same values of
    [disable_border] and [invert] give the same world, the same diagnostics,
    the same [ascii] and the same [ascii_sha256]. *)
Theorem Read_by_uppercase_and_flags (w : World Disk) (data1 data2 : Model)
    (diags : diag.Diagnostics) (resp : ReadResponse Model) :
  Text data1 = Text data2 -> SensitiveText data1 = SensitiveText data2 ->
  strings.ToUpper U (types.ValueString (ErrorCorrection data1))
    = strings.ToUpper U (types.ValueString (ErrorCorrection data2)) ->
  types.ValueBool (DisableBorder data1) = types.ValueBool (DisableBorder data2) ->
  types.ValueBool (Invert data1) = types.ValueBool (Invert data2) ->
  let r1 := Read U w {| ReadRequest.Config := {| tfsdk.target := data1; tfsdk.diags := diags |} |}
              resp in
  let r2 := Read U w {| ReadRequest.Config := {| tfsdk.target := data2; tfsdk.diags := diags |} |}
              resp in
  fst r1 = fst r2 /\ data_results (snd r1) = data_results (snd r2).
Proof.
  intros Htext Hsens Hec Hdb Hinv. simpl.
  destruct (diag.HasError (diag.Append (Diagnostics resp) diags)) eqn:Hok.
  - unfold Read. simpl. rewrite Hok. split; reflexivity.
  - rewrite (Read_outcome U w
               {| ReadRequest.Config := {| tfsdk.target := data1; tfsdk.diags := diags |} |}
               resp Hok).
    rewrite (Read_outcome U w
               {| ReadRequest.Config := {| tfsdk.target := data2; tfsdk.diags := diags |} |}
               resp Hok).
    simpl. unfold selected_data. rewrite Htext, Hsens, Hec, Hdb, Hinv.
    destruct (level_of_tag _); simpl; [|split; reflexivity].
    destruct (qrcode.New _ _); simpl; split; reflexivity.
Qed.

(** On ASCII, ToUpper maps every byte. *)
Lemma map_upper_no_lower (s : string) :
  strings.hasLower s = false -> strings.map_bytes strings.upper_byte s = s.
Proof.
  induction s as [|c s IH]; simpl; [reflexivity|].
  intros H. apply orb_false_iff in H as [Hc Hs].
  rewrite (IH Hs). unfold strings.upper_byte. rewrite Hc. reflexivity.
Qed.

Lemma ToUpper_ascii (s : string) :
  strings.isASCII s = true -> strings.ToUpper U s = strings.map_bytes strings.upper_byte s.
Proof.
  intros Hs. unfold strings.ToUpper. rewrite Hs.
  destruct (strings.hasLower s) eqn:Hl; simpl; [reflexivity|].
  symmetry. now apply map_upper_no_lower.
Qed.

(** The switch of Read on one uppercased byte. *)
Lemma level_of_upper_byte (c : ascii) :
  match level_of_tag (String (strings.upper_byte c) "") with
  | None => true
  | Some _ => false
  end = negb (existsb (String.eqb (String c "")) accepted_levels).
Proof.
  destruct c as [[] [] [] [] [] [] [] []]; reflexivity.
Qed.

Lemma level_of_ascii (s : string) :
  level_of_tag (strings.map_bytes strings.upper_byte s) = None <-> ~ In s accepted_levels.
Proof.
  assert (Hmem : In s accepted_levels <-> existsb (String.eqb s) accepted_levels = true).
  { rewrite existsb_exists. split.
    - intros Hin. exists s. split; [exact Hin|]. apply String.eqb_refl.
    - intros [x [Hin Heq]]. apply String.eqb_eq in Heq. now subst. }
  rewrite Hmem. destruct s as [|c [|c' s']].
  - split; [intros H; vm_compute in H; discriminate H|intros H; now contradiction H].
  - pose proof (level_of_upper_byte c) as H. cbn [strings.map_bytes].
    destruct (level_of_tag (String (strings.upper_byte c) ""));
      destruct (existsb (String.eqb (String c "")) accepted_levels);
      simpl in H; try discriminate H.
    + split; [discriminate|]. intros Hn. now contradiction Hn.
    + split; [intros _; discriminate|reflexivity].
  - cbn [strings.map_bytes]. unfold level_of_tag, accepted_levels. cbn [existsb].
    repeat match goal with
    | |- context [String.eqb ?a ?b] =>
        let E := fresh "E" in
        destruct (String.eqb_spec a b) as [E|_]; [discriminate E|]
    end.
    simpl. split; [intros _; discriminate|reflexivity].
Qed.

(** X14.  The spellings of [error_correction] that Read accepts.  For a
    configuration that decodes without error and an [error_correction] made
    of ASCII bytes, Read reports "Invalid Error Correction Level" exactly
    when the string is none of "L", "l", "M", "m", "", "Q", "q", "H", "h":
    one letter in either case, or nothing; "low", "L " or "LM" are refused. *)
Theorem Read_accepted_levels (w : World Disk) (req : ReadRequest.t Model)
    (resp : ReadResponse Model) :
  let data := tfsdk.target (ReadRequest.Config req) in
  let resp0 := Diagnostics_Append resp (tfsdk.diags (ReadRequest.Config req)) in
  let s := types.ValueString (ErrorCorrection data) in
  diag.HasError (Diagnostics resp0) = false ->
  strings.isASCII s = true ->
  (In invalid_level (Diagnostics (snd (Read U w req resp))) <-> ~ In s accepted_levels).
Proof.
  intros data resp0 s Hok Hascii.
  rewrite <- level_of_ascii, <- (ToUpper_ascii s Hascii).
  rewrite (Read_outcome U w req resp Hok). fold data resp0 s.
  pose proof (not_In_error _ invalid_level Hok eq_refl) as Hfresh.
  destruct (level_of_tag _) as [level|]; simpl.
  - split; [|discriminate]. intros Hin. exfalso.
    destruct (qrcode.New _ level); simpl in Hin.
    + now apply Hfresh.
    + rewrite AddError_fresh in Hin by exact Hok.
      apply in_app_iff in Hin as [Hin|[Heq|[]]]; [now apply Hfresh|discriminate Heq].
  - split; [reflexivity|]. intros _.
    rewrite AddError_fresh by exact Hok. apply in_or_app. right. now left.
Qed.

(** X15.  The two files that declare the data source agree.  Read of
    data_source_qrcode.go, on the configuration and the response without
    [ascii_sha256], returns the world of the Read with the checksum and its
    response without [ascii_sha256]: the same calls, the same diagnostics,
    the same [ascii]. *)
Theorem Read_files_agree (w : World Disk) (req : ReadRequest.t Model)
    (resp : ReadResponse Model) :
  QRCodeDataSourceAscii.Read U w (ascii_only.request req) (ascii_only.response resp)
  = (fst (Read U w req resp), ascii_only.response (snd (Read U w req resp))).
Proof.
  destruct req as [[data diags]].
  unfold QRCodeDataSourceAscii.Read, Read, qrcode_New, ascii_only.request,
    ascii_only.response, ascii_only.model.
  simpl.
  destruct (diag.HasError _); simpl; [reflexivity|].
  set (tag := strings.ToUpper U _).
  destruct (String.eqb tag "L"); [|destruct (String.eqb tag "M" || String.eqb tag "");
    [|destruct (String.eqb tag "Q"); [|destruct (String.eqb tag "H")]]]; simpl;
    try reflexivity.
  all: destruct (types.IsNull (Text data)); simpl; destruct (qrcode.New _ _); reflexivity.
Qed.

End DataSourceOutcomes.

(** * The schemas and the registration *)

(** X16.  Each schema is the schema of its struct: the attributes, with
    their types and in their order, are the tfsdk fields of the struct that
    the handlers decode into; every attribute is exactly one of required,
    optional and computed; [sensitive_text] and no other attribute is
    sensitive; and the validators name attributes of the schema. *)
Theorem schemas_match_structs :
  let well_formed (s : schema.Schema) (fs : list (string * schema.Kind)) :=
    fields.of_schema s = fs /\
    forallb (fun na => fields.one_role (snd na)) s = true /\
    map fst (filter (fun na => schema.Sensitive (snd na)) s) = ["sensitive_text"] /\
    forallb (fun p => existsb (String.eqb p) (map fst s)) (fields.validator_paths s) = true in
  well_formed qrcodeResource.Schema fields.qrcodeResource /\
  well_formed QRCodeDataSource.Schema fields.QRCodeDataSource /\
  well_formed QRCodeDataSourceAscii.Schema fields.QRCodeDataSourceAscii.
Proof. repeat split. Qed.

(** X17.  Registration.  Whatever the version the provider is built with,
    its Metadata reports that version, it registers one data source and one
    resource, and both are found under the type name of the provider
    followed by "_generate", that is "qrcode_generate", the name that the
    acceptance tests use. *)
Theorem handlers_are_qrcode_generate (version : string) :
  let p := qrcodeProvider.New version tt in
  provider.Version
    (qrcodeProvider.Metadata p {| provider.TypeName := ""; provider.Version := "" |}) = version /\
  qrcodeProvider.type_names p (qrcodeProvider.DataSources p) = ["qrcode_generate"] /\
  qrcodeProvider.type_names p (qrcodeProvider.Resources p) = ["qrcode_generate"].
Proof. repeat split. Qed.

(** * The further properties on concrete requests *)

#[global] Instance memfs_sequence_laws : SequenceLaws memfs.system.
Proof.
  split.
  - (* WriteFile_Stat *)
    intros name data perm d d'. simpl. unfold memfs.WriteFile, memfs.Stat.
    destruct (String.eqb name ""); [discriminate|].
    destruct (memfs.is_denied (memfs.clean name) d) eqn:Hden; [discriminate|].
    assert (Hwritten :
              memfs.nodes d !! memfs.clean name <> Some memfs.Directory ->
              memfs.has_directory (memfs.Dir (memfs.clean name)) d = true ->
              forall d0,
                d0 = {| memfs.nodes := <[memfs.clean name := memfs.File data]> (memfs.nodes d);
                        memfs.denied := memfs.denied d |} ->
                (if memfs.is_denied (memfs.clean name) d0
                 then Some (PathError "stat" name EACCES)
                 else if memfs.under_file (memfs.clean name) d0
                      then Some (PathError "stat" name ENOTDIR)
                      else match memfs.nodes d0 !! memfs.clean name with
                           | Some _ => None
                           | None => Some (PathError "stat" name ENOENT)
                           end) = None).
    { intros Hkey Hdir d0 ->.
      change (memfs.is_denied (memfs.clean name) _)
        with (memfs.is_denied (memfs.clean name) d).
      rewrite Hden. unfold memfs.under_file.
      rewrite (memfs_has_directory_insert _ data d Hkey Hdir). simpl.
      now rewrite lookup_insert_eq. }
    destruct (memfs.nodes d !! memfs.clean name) as [[?|]|] eqn:Hkey; try discriminate;
      (destruct (memfs.has_directory _ d) eqn:Hdir;
       [|destruct (memfs.under_file _ d); discriminate]);
      intros [= <-]; apply Hwritten; auto; discriminate.
  - (* Remove_frame *)
    intros name d other Hne. simpl in *. unfold memfs.Remove, memfs.contents.
    destruct (memfs.is_denied _ d); [reflexivity|].
    destruct (memfs.under_file _ d); [reflexivity|].
    destruct (memfs.nodes d !! memfs.clean name); [|reflexivity].
    simpl. rewrite lookup_delete_ne; congruence.
Qed.

(** A size of 99 leaves the state that was there. *)
Lemma Create_error_keeps_state_witness :
  resource.State
    (snd (qrcodeResource.Create sample.world (sample.create (types.Known 99) "out/q.png")
            (sample.in_state (sample.stored types.Null "out/q.png"))))
  = Some (sample.stored types.Null "out/q.png").
Proof.
  destruct (Create_error_keeps_state sample.world (sample.create (types.Known 99) "out/q.png")
              (sample.in_state (sample.stored types.Null "out/q.png"))) as [Hkeep _].
  exact (Hkeep eq_refl).
Defined.

(** The stand-in encoder refuses the empty text: one call, one error, no
    file. *)
Lemma Create_failures_witness :
  qrcodeResource.Create sample.world (create_request more.empty_text []) sample.no_state
  = (record (Call_qrcode_Encode "" qrcode.Medium 256) sample.world,
     {| resource.State := None;
        resource.Diagnostics :=
          [diag.NewErrorDiagnostic "QR Code Generation Failed" "no data to encode"] |}).
Proof.
  destruct (Create_failures sample.world (create_request more.empty_text []) sample.no_state
              eq_refl eq_refl) as [Hencoder _].
  exact (Hencoder (errorString "no data to encode") eq_refl).
Defined.

(** The same text and size written to two files, from two worlds: one
    checksum. *)
Lemma Create_checksum_by_text_and_size_witness :
  exists pngData,
    qrcode.Encode "qrcode" qrcode.Medium 256 = Ok pngData /\
    option_map qrcodeResource.SHA256
      (resource.State
         (snd (qrcodeResource.Create sample.world (sample.create types.Null "out/q.png")
                 sample.no_state)))
    = Some (types.Known (hex.EncodeToString (sha256.Sum256 pngData))) /\
    option_map qrcodeResource.SHA256
      (resource.State
         (snd (qrcodeResource.Create sample.created
                 (create_request (sample.sensitive_plan "out/r.png") []) sample.no_state)))
    = Some (types.Known (hex.EncodeToString (sha256.Sum256 pngData))).
Proof.
  exact (Create_checksum_by_text_and_size sample.world sample.created
           (sample.create types.Null "out/q.png")
           (create_request (sample.sensitive_plan "out/r.png") [])
           sample.no_state sample.no_state eq_refl eq_refl eq_refl eq_refl).
Defined.

Lemma Create_then_Read_witness :
  snd (qrcodeResource.Read sample.created (read_request (sample.stored types.Null "out/q.png"))
         (response_with (Some (sample.stored types.Null "out/q.png"))))
  = response_with (Some (sample.stored types.Null "out/q.png")).
Proof.
  destruct (Create_then_Read memfs_sequence_laws sample.world
              (sample.create types.Null "out/q.png") (sample.update "out/r.png")
              sample.no_state (sample.stored types.Null "out/q.png")) as [Hcreate _].
  exact (proj1 (Hcreate eq_refl eq_refl)).
Defined.

Lemma checksum_of_file_is_sha256_witness :
  file_generated "out/q.png" (disk sample.created) = true /\
  calculateSHA256 "out/q.png" (disk sample.created)
  = Some "483d47daaad510ad820b88fbb8f0e7e8577790e7a9d24d2e94d58c5fc725cabf".
Proof.
  exact (checksum_of_file_is_sha256 memfs_laws memfs_sequence_laws sample.world
           (sample.create types.Null "out/q.png") sample.no_state
           (sample.stored types.Null "out/q.png") eq_refl eq_refl).
Defined.

(** Delete of "out/r.png" after the update leaves "out/q.png". *)
Lemma Delete_touches_one_path_witness :
  os.contents
    (disk (fst (qrcodeResource.Delete more.updated
                  (delete_request (sample.stored types.Null "out/r.png"))
                  (response_with (Some (sample.stored types.Null "out/r.png"))))))
    "out/q.png"
  = os.contents (disk more.updated) "out/q.png".
Proof.
  destruct (Delete_touches_one_path memfs_sequence_laws more.updated
              (delete_request (sample.stored types.Null "out/r.png"))
              (response_with (Some (sample.stored types.Null "out/r.png")))) as [_ Hframe].
  apply Hframe. discriminate.
Defined.

Lemma Delete_twice_witness :
  let r1 := qrcodeResource.Delete sample.created
              (delete_request (sample.stored types.Null "out/q.png"))
              (response_with (Some (sample.stored types.Null "out/q.png"))) in
  let r2 := qrcodeResource.Delete (fst r1)
              (delete_request (sample.stored types.Null "out/q.png"))
              (response_with (Some (sample.stored types.Null "out/q.png"))) in
  resource.Diagnostics (snd r2) = [] /\ disk (fst r2) = disk (fst r1) /\
  resource.State (snd r2) = None.
Proof.
  destruct (Delete_twice memfs_laws sample.created (sample.stored types.Null "out/q.png")
              (Some (sample.stored types.Null "out/q.png"))
              (Some (sample.stored types.Null "out/q.png")) eq_refl)
    as (Hdiags & Hdisk & _ & Hstate).
  split; [exact Hdiags|]. split; [exact Hdisk|].
  apply Hstate; [reflexivity|discriminate].
Defined.

Lemma Delete_then_Read_witness :
  let r := qrcodeResource.Delete sample.created
             (delete_request (sample.stored types.Null "out/q.png"))
             (response_with (Some (sample.stored types.Null "out/q.png"))) in
  os.contents (disk (fst r)) "out/q.png" = None /\
  snd (qrcodeResource.Read (fst r) (read_request (sample.stored types.Null "out/q.png"))
         (response_with (Some (sample.stored types.Null "out/q.png"))))
  = {| resource.State := None; resource.Diagnostics := [] |}.
Proof.
  assert (Hne : types.ValueString (types.Known "out/q.png") <> "") by discriminate.
  exact (Delete_then_Read memfs_laws sample.created (sample.stored types.Null "out/q.png")
           (Some (sample.stored types.Null "out/q.png")) eq_refl Hne eq_refl eq_refl).
Defined.

Lemma Create_then_Delete_witness :
  let r' := qrcodeResource.Delete sample.created
              (delete_request (sample.stored types.Null "out/q.png"))
              (response_with (Some (sample.stored types.Null "out/q.png"))) in
  calls (fst r')
  = calls sample.created ++ [Call_os_Stat "out/q.png"; Call_os_Remove "out/q.png"] /\
  (diag.HasError (resource.Diagnostics (snd r')) = false ->
   os.contents (disk (fst r')) "out/q.png" = None /\ resource.State (snd r') = None).
Proof.
  assert (Hne : types.ValueString (types.Known "out/q.png") <> "") by discriminate.
  exact (Create_then_Delete memfs_laws memfs_sequence_laws sample.world
           (sample.create types.Null "out/q.png") sample.no_state
           (sample.stored types.Null "out/q.png")
           (Some (sample.stored types.Null "out/q.png")) eq_refl eq_refl eq_refl Hne).
Defined.

(** Create "out/q.png", update to "out/r.png", destroy: "out/q.png" is
    still there. *)
Lemma first_file_outlives_update_witness :
  let r3 := qrcodeResource.Delete more.updated
              (delete_request (sample.stored types.Null "out/r.png"))
              (response_with (Some (sample.stored types.Null "out/r.png"))) in
  os.contents (disk (fst r3)) "out/q.png" = os.contents (disk sample.created) "out/q.png" /\
  exists pngData, os.contents (disk (fst r3)) "out/q.png" = Some pngData.
Proof.
  assert (Hup : forall d : memfs.Disk,
            os.resolve d "out/q.png" <> os.resolve d "out/r.png") by discriminate.
  exact (first_file_outlives_update memfs_laws memfs_sequence_laws sample.world
           (sample.create types.Null "out/q.png") (sample.update "out/r.png")
           (delete_request (sample.stored types.Null "out/r.png"))
           sample.no_state (sample.in_state (sample.stored types.Null "out/q.png"))
           (response_with (Some (sample.stored types.Null "out/r.png")))
           eq_refl Hup Hup).
Defined.

Example destroyed_after_update :
  let r3 := qrcodeResource.Delete more.updated
              (delete_request (sample.stored types.Null "out/r.png"))
              (response_with (Some (sample.stored types.Null "out/r.png"))) in
  os.contents (disk (fst r3)) "out/r.png" = None /\
  resource.State (snd r3) = None /\
  os.Stat "out/q.png" (disk (fst r3)) = None.
Proof. vm_compute. repeat split; reflexivity. Qed.

(** The stand-in encoder refuses the empty text in the data source too. *)
Lemma Read_outside_world_witness :
  snd (QRCodeDataSource.Read standin.unicode_upper sample.world (more.read "" "L")
         sample.no_data)
  = {| datasource.State := None;
       datasource.Diagnostics :=
         [diag.NewErrorDiagnostic "QR Code Generation Failed"
            "Could not generate QR code: no data to encode"] |}.
Proof.
  destruct (Read_outside_world standin.unicode_upper sample.world (more.read "" "L")
              sample.no_data) as (_ & _ & _ & Hencoder).
  exact (Hencoder eq_refl qrcode.Low (errorString "no data to encode") eq_refl eq_refl).
Defined.

(** "q" with null flags and "Q" with the flags set to false: one result. *)
Lemma Read_by_uppercase_and_flags_witness :
  let r1 := QRCodeDataSource.Read standin.unicode_upper sample.world
              {| datasource.ReadRequest.Config :=
                   {| tfsdk.target := more.data "qrcode" "q" types.Null types.Unknown;
                      tfsdk.diags := [] |} |} sample.no_data in
  let r2 := QRCodeDataSource.Read standin.unicode_upper sample.world
              {| datasource.ReadRequest.Config :=
                   {| tfsdk.target :=
                        more.data "qrcode" "Q" (types.Known false) (types.Known false);
                      tfsdk.diags := [] |} |} sample.no_data in
  fst r1 = fst r2 /\ data_results (snd r1) = data_results (snd r2).
Proof.
  exact (Read_by_uppercase_and_flags standin.unicode_upper sample.world
           (more.data "qrcode" "q" types.Null types.Unknown)
           (more.data "qrcode" "Q" (types.Known false) (types.Known false))
           [] sample.no_data eq_refl eq_refl eq_refl eq_refl eq_refl).
Defined.

(** "low" is refused, "h" is accepted. *)
Lemma Read_accepted_levels_witness :
  In invalid_level
    (datasource.Diagnostics
       (snd (QRCodeDataSource.Read standin.unicode_upper sample.world
               (more.read "qrcode" "low") sample.no_data))) /\
  ~ In invalid_level
      (datasource.Diagnostics
         (snd (QRCodeDataSource.Read standin.unicode_upper sample.world
                 (more.read "qrcode" "h") sample.no_data))).
Proof.
  split.
  - apply (Read_accepted_levels standin.unicode_upper sample.world (more.read "qrcode" "low")
             sample.no_data eq_refl eq_refl).
    unfold accepted_levels. simpl. intuition discriminate.
  - intros Hin.
    apply (Read_accepted_levels standin.unicode_upper sample.world (more.read "qrcode" "h")
             sample.no_data eq_refl eq_refl) in Hin.
    apply Hin. unfold accepted_levels. simpl. tauto.
Defined.
